(** * viw: the editor state of [src/state.c]

    A shallow embedding of [state.c]: the derived editor state
    ([update_state] and the five steps it runs) and the two edit command
    handlers ([handle_enter], [handle_backspace]).

    - [size_t] is a 64-bit unsigned integer: a [Z] with the wrap-around of
      every addition and subtraction written out ([wrap]).
    - Pointers are [option loc]; [None] is [NULL].  Rows live in a store
      ([heap]) keyed by their address, because windows alias them and the
      display-row mapper writes [is_dirty] through the alias.
    - A function that dereferences a pointer returns [option]: [None] is the
      fatal programming error of a null or dangling reference.
    - [buffer.c] and [screen.c] are not part of the sources: the buffer
      functions [state.c] calls are the fields of the class [BufferOps]. *)

From Stdlib Require Import ZArith Lia Ascii String.
From stdpp Require Import gmap list.
From Equations Require Import Equations.

Local Open Scope Z_scope.

(** ** Machine integers *)

Definition SIZE_MAX : Z := 2 ^ 64 - 1.

(** Unsigned arithmetic on [size_t] is modulo [SIZE_MAX + 1]. *)
Definition wrap (z : Z) : Z := z mod (SIZE_MAX + 1).

Definition is_size_t (z : Z) : Prop := 0 <= z <= SIZE_MAX.

(** ** Data model *)

Definition loc := positive.
Definition ptr := option loc.

Inductive MODE := NORMAL | INSERT_FRONT | INSERT_BACK | EX.

Inductive DIRECTION := UP | DOWN | LEFT | RIGHT.

#[global] Instance MODE_eq_dec : EqDecision MODE.
Proof. solve_decision. Defined.

(** The doubly linked [echar_t] cells of one row are owned by that row and
    never aliased by [state.c], which only tests [r->current],
    [r->current->prev] and [r->current->next] against [NULL].  A cell is
    modelled together with the two chains hanging off it: [prev] lists the
    characters reached through the [prev] pointers, nearest first, and [next]
    those reached through [next]; the empty list is the [NULL] pointer. *)
Module Echar.
Record echar_t := mk { c : ascii; prev : list ascii; next : list ascii }.
End Echar.
Abbreviation echar_t := Echar.echar_t.

Module Row.
Record row_t := mk {
  current : option echar_t;
  line_size : Z;
  is_dirty : bool;
  prev : ptr;
  next : ptr }.
Definition set_is_dirty (b : bool) (r : row_t) : row_t :=
  mk (current r) (line_size r) b (prev r) (next r).
End Row.
Abbreviation row_t := Row.row_t.

Module Buffer.
Record buffer_t := mk {
  current : ptr;
  current_row : Z;
  current_char : Z;
  num_rows : Z;
  status_row : ptr;
  heap : gmap loc row_t }.
Definition set_heap (h : gmap loc row_t) (b : buffer_t) : buffer_t :=
  mk (current b) (current_row b) (current_char b) (num_rows b) (status_row b) h.
End Buffer.
Abbreviation buffer_t := Buffer.buffer_t.

Module Window.
Record window_t := mk { r : ptr; line_number : Z }.
End Window.
Abbreviation window_t := Window.window_t.

Module Screen.
Record screen_t := mk {
  num_windows : Z;
  windows : list window_t;
  status_window : window_t }.
Definition set_windows (ws : list window_t) (s : screen_t) : screen_t :=
  mk (num_windows s) ws (status_window s).
Definition set_status_window (w : window_t) (s : screen_t) : screen_t :=
  mk (num_windows s) (windows s) w.
End Screen.
Abbreviation screen_t := Screen.screen_t.

Record state_t := mk_state {
  mode : MODE;
  cx : Z;
  cy : Z;
  top_row : Z;
  padding_front : Z;
  to_refresh : bool;
  buf : buffer_t;
  scr : screen_t;
  prev_key : ascii }.

Definition set_mode (m : MODE) (st : state_t) : state_t :=
  mk_state m (cx st) (cy st) (top_row st) (padding_front st) (to_refresh st)
    (buf st) (scr st) (prev_key st).
Definition set_cx (x : Z) (st : state_t) : state_t :=
  mk_state (mode st) x (cy st) (top_row st) (padding_front st) (to_refresh st)
    (buf st) (scr st) (prev_key st).
Definition set_cy (y : Z) (st : state_t) : state_t :=
  mk_state (mode st) (cx st) y (top_row st) (padding_front st) (to_refresh st)
    (buf st) (scr st) (prev_key st).
Definition set_top_row (t : Z) (st : state_t) : state_t :=
  mk_state (mode st) (cx st) (cy st) t (padding_front st) (to_refresh st)
    (buf st) (scr st) (prev_key st).
Definition set_padding_front (p : Z) (st : state_t) : state_t :=
  mk_state (mode st) (cx st) (cy st) (top_row st) p (to_refresh st)
    (buf st) (scr st) (prev_key st).
Definition set_to_refresh (f : bool) (st : state_t) : state_t :=
  mk_state (mode st) (cx st) (cy st) (top_row st) (padding_front st) f
    (buf st) (scr st) (prev_key st).
Definition set_buf (b : buffer_t) (st : state_t) : state_t :=
  mk_state (mode st) (cx st) (cy st) (top_row st) (padding_front st) (to_refresh st)
    b (scr st) (prev_key st).
Definition set_scr (s : screen_t) (st : state_t) : state_t :=
  mk_state (mode st) (cx st) (cy st) (top_row st) (padding_front st) (to_refresh st)
    (buf st) s (prev_key st).

(** The functions of [buffer.h] that [state.c] calls; their bodies are in
    [buffer.c], which is not among the sources, so they are parameters.
    Those taking a [buffer_t *] may rewrite the whole buffer; those taking a
    [row_t *] ([clear_row], [add_char], [drop_char]) only reach the row
    store. *)
Class BufferOps := {
  move_current : buffer_t -> DIRECTION -> buffer_t;
  split_row : buffer_t -> buffer_t;
  join_row : buffer_t -> buffer_t;
  append_char : buffer_t -> ascii -> buffer_t;
  delete_char : buffer_t -> buffer_t;
  clear_row : ptr -> gmap loc row_t -> gmap loc row_t;
  add_char : ptr -> ascii -> gmap loc row_t -> gmap loc row_t;
  drop_char : ptr -> gmap loc row_t -> gmap loc row_t }.

(** ** The derivation steps of [update_state] *)

(** [update_top_row]: scroll by the least amount that keeps the current row
    in the viewport. *)
Definition update_top_row (st : state_t) : state_t :=
  let current_row := Buffer.current_row (buf st) in
  let num_windows := Screen.num_windows (scr st) in
  let st :=
    if current_row >=? wrap (top_row st + num_windows)
    then set_to_refresh true
           (set_top_row (wrap (wrap (current_row - num_windows) + 1)) st)
    else st in
  if current_row <? top_row st
  then set_to_refresh true (set_top_row current_row st)
  else st.

(** The [while (max_row > 0)] loop of [update_padding_front]. *)
Equations? count_digits (max_row num_digits : Z) : Z
  by wf (Z.to_nat max_row) lt :=
count_digits max_row num_digits with decide (max_row > 0) => {
  | left _ := count_digits (max_row / 10) (wrap (num_digits + 1));
  | right _ := num_digits }.
Proof.
  apply Z2Nat.inj_lt; [apply Z.div_pos; lia | lia | apply Z.div_lt; lia].
Qed.

Definition update_padding_front (st : state_t) : state_t :=
  let max_row := Buffer.num_rows (buf st) in
  let num_digits := count_digits max_row 0 in
  set_padding_front (wrap (num_digits + 1)) st.


(** [update_mode_status]: write the mode's banner into the status row;
    nothing is written in [EX] mode. *)
Definition write_text `{BufferOps} (r : ptr) (text : string)
    (h : gmap loc row_t) : gmap loc row_t :=
  fold_left (fun h ch => add_char r ch h) (list_ascii_of_string text)
    (clear_row r h).

Definition update_mode_status `{BufferOps} (st : state_t) : state_t :=
  let insert_mode := "-- INSERT --"%string in
  let normal_mode := "-- NORMAL --"%string in
  let show text :=
    set_buf (Buffer.set_heap
               (write_text (Buffer.status_row (buf st)) text (Buffer.heap (buf st)))
               (buf st)) st in
  if bool_decide (mode st = INSERT_BACK) || bool_decide (mode st = INSERT_FRONT)
  then show insert_mode
  else if bool_decide (mode st = NORMAL) then show normal_mode
  else st.

(** Reading through a row pointer: [None] for [NULL] or a dangling address. *)
Definition deref (h : gmap loc row_t) (p : ptr) : option row_t :=
  l ← p; h !! l.

(** [update_cursor_position] *)
Definition update_cursor_position (st : state_t) : option state_t :=
  row ← deref (Buffer.heap (buf st)) (Buffer.current (buf st));
  let line_size := Row.line_size row in
  let current_row := Buffer.current_row (buf st) in
  let current_char := Buffer.current_char (buf st) in
  let top_row := top_row st in
  let st := set_cy 0 (set_cx 0 st) in
  let st := set_cy (wrap (current_row - top_row)) st in
  let st :=
    if line_size =? 0 then set_cx 0 st
    else if cx st >=? line_size then set_cx (wrap (line_size - 1)) st
    else set_cx current_char st in
  let st :=
    if bool_decide (mode st = INSERT_BACK) && negb (Row.line_size row =? 0)
    then set_cx (wrap (cx st + 1)) st
    else st in
  if bool_decide (mode st = EX)
  then
    status ← deref (Buffer.heap (buf st)) (Buffer.status_row (buf st));
    Some (set_cx (Row.line_size status) (set_cy (Screen.num_windows (scr st)) st))
  else Some (set_cx (wrap (wrap (cx st + padding_front st) + 1)) st).

(** [windows[i]->r = r; windows[i]->line_number = n]: an index outside the
    window array is an out-of-bounds write. *)
Definition set_window (ws : list window_t) (i : Z) (w : window_t)
    : option (list window_t) :=
  _ ← ws !! Z.to_nat i; Some (<[Z.to_nat i := w]> ws).

(** The first loop of [update_scr_windows]: from the current row back to
    the row at [top_row]. *)
Fixpoint link_backward (fuel : nat) (top_row current_row i : Z) (r : ptr)
    (ws : list window_t) (h : gmap loc row_t)
    : option (list window_t * gmap loc row_t) :=
  if i <=? current_row then
    match fuel with
    | O => None
    | S fuel =>
      l ← r;
      row ← h !! l;
      ws ← set_window ws (wrap (current_row - i))
             (Window.mk (Some l) (wrap (wrap (wrap (top_row + current_row) - i) + 1)));
      link_backward fuel top_row current_row (wrap (i + 1)) (Row.prev row) ws
        (<[l := Row.set_is_dirty true row]> h)
    end
  else Some (ws, h).

(** The second loop: forward from the row after the current one; once the
    rows run out the remaining windows are cleared. *)
Fixpoint link_forward (fuel : nat) (top_row bound i : Z) (r : ptr)
    (ws : list window_t) (h : gmap loc row_t)
    : option (list window_t * gmap loc row_t) :=
  if i <? bound then
    match fuel with
    | O => None
    | S fuel =>
      match r with
      | Some l =>
        row ← h !! l;
        ws ← set_window ws (wrap (i - top_row)) (Window.mk (Some l) (wrap (i + 1)));
        link_forward fuel top_row bound (wrap (i + 1)) (Row.next row) ws
          (<[l := Row.set_is_dirty true row]> h)
      | None =>
        ws ← set_window ws (wrap (i - top_row)) (Window.mk None 0);
        link_forward fuel top_row bound (wrap (i + 1)) None ws h
      end
    end
  else Some (ws, h).

(** [update_scr_windows].  Each loop gets as fuel the number of iterations
    after which its condition fails; the first loop's condition
    [i <= current_row] never fails when [current_row = SIZE_MAX], and the
    result is then [None] like that of any other run that does not return. *)
Definition update_scr_windows (st : state_t) : option state_t :=
  let sw := Screen.status_window (scr st) in
  let sw :=
    match Window.r sw with
    | None => Window.mk (Buffer.status_row (buf st)) (Window.line_number sw)
    | Some _ => sw
    end in
  let current_row := Buffer.current_row (buf st) in
  let top_row := top_row st in
  let num_windows := Screen.num_windows (scr st) in
  '(ws, h) ← link_backward (Z.to_nat (current_row - top_row + 1)) top_row current_row
                top_row (Buffer.current (buf st))
                (Screen.windows (scr st)) (Buffer.heap (buf st));
  cur ← deref h (Buffer.current (buf st));
  let bound := wrap (top_row + num_windows) in
  let first := wrap (current_row + 1) in
  '(ws, h) ← link_forward (Z.to_nat (bound - first)) top_row bound first
                (Row.next cur) ws h;
  Some (set_scr (Screen.set_windows ws (Screen.set_status_window sw (scr st)))
          (set_buf (Buffer.set_heap h (buf st)) st)).

(** ** [update_state]

    The entry point runs its steps in sequence; each step is recorded in a
    trace so that their order can be stated. *)
Inductive step :=
  StatusText | ScrollPosition | PaddingWidth | DisplayRows | CursorCoordinates.

Definition traced := state_t -> option (state_t * list step).

Definition call (s : step) (f : state_t -> option state_t) : traced :=
  fun st => st' ← f st; Some (st', [s]).

Definition pure_step (f : state_t -> state_t) : state_t -> option state_t :=
  fun st => Some (f st).

Definition assign (f : state_t -> state_t) : traced :=
  fun st => Some (f st, []).

Definition seq (a b : traced) : traced :=
  fun st =>
    '(st1, t1) ← a st;
    '(st2, t2) ← b st1;
    Some (st2, t1 ++ t2).

Definition when (c : state_t -> bool) (a : traced) : traced :=
  fun st => if c st then a st else Some (st, []).

Definition update_state_traced `{BufferOps} : traced :=
  seq (call StatusText (pure_step update_mode_status))
 (seq (call ScrollPosition (pure_step update_top_row))
 (seq (call PaddingWidth (pure_step update_padding_front))
 (seq (when to_refresh
         (seq (call DisplayRows update_scr_windows)
              (assign (set_to_refresh false))))
      (call CursorCoordinates update_cursor_position)))).

Definition update_state `{BufferOps} (st : state_t) : option state_t :=
  fst <$> update_state_traced st.

(** ** Edit command handlers *)

Definition handle_enter `{BufferOps} (st : state_t) : option state_t :=
  at_last_char ←
    (if bool_decide (mode st = INSERT_BACK)
     then row ← deref (Buffer.heap (buf st)) (Buffer.current (buf st));
          Some (Buffer.current_char (buf st) =? wrap (Row.line_size row - 1))
     else Some false);
  if at_last_char : bool
  then
    Some (set_to_refresh true
            (set_buf (delete_char (split_row (append_char (buf st) "0"))) st))
  else
    after_char ←
      (if bool_decide (mode st = INSERT_BACK)
       then row ← deref (Buffer.heap (buf st)) (Buffer.current (buf st));
            Some (negb (Row.line_size row =? 0))
       else Some false);
    let st :=
      if after_char : bool
      then set_mode INSERT_FRONT (set_buf (move_current (buf st) RIGHT) st)
      else st in
    Some (set_to_refresh true (set_buf (split_row (buf st)) st)).

Definition move_cursor `{BufferOps} (st : state_t) (d : DIRECTION) : state_t :=
  set_buf (move_current (buf st) d) st.

Definition set_prev_key (st : state_t) (c : ascii) : state_t :=
  mk_state (mode st) (cx st) (cy st) (top_row st) (padding_front st)
    (to_refresh st) (buf st) (scr st) c.

Definition reset_prev_key (st : state_t) : state_t := set_prev_key st "000"%char.

(** [init_state].  [b] and [s] are what [init_buffer(filename)] and
    [init_screen(LINES)] return ([buffer.c] and [screen.c] are not among the
    sources); the state comes from [malloc], so [padding_front], which the
    function does not assign, starts with an arbitrary value [uninit]. *)
Definition init_state `{BufferOps} (b : buffer_t) (s : screen_t) (uninit : Z)
    : option state_t :=
  update_state (mk_state NORMAL 0 0 0 uninit true b s "000"%char).

(** What a call of [handle_backspace] comes to: it returns, it dereferences
    a null or dangling pointer, or its recursion is deeper than allowed. *)
Inductive outcome :=
  | Returned (st : state_t)
  | Fault
  | TooDeep.

(** The body of [handle_backspace]; [self] is the function itself, for the
    call it makes in [INSERT_BACK] mode. *)
Definition handle_backspace_body `{BufferOps} (self : state_t -> outcome)
    (st : state_t) : outcome :=
  let r := Buffer.current (buf st) in
  let st :=
    if bool_decide (mode st = EX)
    then
      let b := move_current (buf st) LEFT in
      set_buf (Buffer.set_heap (drop_char (Buffer.status_row b) (Buffer.heap b)) b) st
    else st in
  let insert_back (st : state_t) : outcome :=
    if bool_decide (mode st = INSERT_BACK) then
      match deref (Buffer.heap (buf st)) r with
      | None => Fault
      | Some row =>
        match Row.current row with
        | None => Returned (set_to_refresh true (set_buf (join_row (buf st)) st))
        | Some _ =>
          if Buffer.current_char (buf st) =? 0 then
            if Row.line_size row =? 1
            then Returned (set_buf (delete_char (buf st)) st)
            else
              let st := set_mode INSERT_FRONT st in
              let st := set_buf (move_current (buf st) RIGHT) st in
              self st
          else
            let st := set_buf (delete_char (buf st)) st in
            match deref (Buffer.heap (buf st)) r ≫= Row.current with
            | None => Fault
            | Some e =>
              match Echar.next e with
              | _ :: _ => Returned (set_buf (move_current (buf st) LEFT) st)
              | [] => Returned st
              end
            end
        end
      end
    else Returned st in
  if bool_decide (mode st = INSERT_FRONT) then
    match deref (Buffer.heap (buf st)) r ≫= Row.current with
    | None => Fault
    | Some e =>
      match Echar.prev e with
      | [] => Returned (set_to_refresh true (set_buf (join_row (buf st)) st))
      | _ :: _ =>
        let st := set_buf (move_current (buf st) LEFT) st in
        let st := set_buf (delete_char (buf st)) st in
        insert_back st
      end
    end
  else insert_back st.

(** [handle_backspace]; [depth] bounds the nesting of calls, the outermost
    included. *)
Fixpoint handle_backspace `{BufferOps} (depth : nat) (st : state_t) : outcome :=
  match depth with
  | O => TooDeep
  | S depth => handle_backspace_body (handle_backspace depth) st
  end.

(** ** What the editor shows *)

(** The characters of a row, first to last. *)
Definition row_text (row : row_t) : list ascii :=
  match Row.current row with
  | None => []
  | Some e => rev (Echar.prev e) ++ Echar.c e :: Echar.next e
  end.

(** The editor-visible part of a state: cursor coordinates, top row, gutter
    width, display-row mapping and status-line text. *)
Record view_t := mk_view {
  v_cx : Z;
  v_cy : Z;
  v_top_row : Z;
  v_padding_front : Z;
  v_windows : list window_t;
  v_status_window : window_t;
  v_status_text : option (list ascii) }.

Definition view (st : state_t) : view_t :=
  mk_view (cx st) (cy st) (top_row st) (padding_front st)
    (Screen.windows (scr st)) (Screen.status_window (scr st))
    (row_text <$> deref (Buffer.heap (buf st)) (Buffer.status_row (buf st))).

(** ** A reference document

    [buffer.c] is not among the sources, so the properties of [state.c] are
    stated for every [BufferOps].  The functions below are one such
    implementation, on which those statements are tried at concrete states. *)
Module Reference.

Definition on_row (f : row_t -> row_t) (r : ptr) (h : gmap loc row_t)
    : gmap loc row_t :=
  match r with
  | Some l => alter f l h
  | None => h
  end.

Definition cell_at_end (text : list ascii) : option echar_t :=
  match rev text with
  | [] => None
  | ch :: before => Some (Echar.mk ch before [])
  end.

Definition cell_at_start (text : list ascii) : option echar_t :=
  match text with
  | [] => None
  | ch :: after => Some (Echar.mk ch [] after)
  end.

(** Modelled from the spec: [clear_row] of buffer.c, the status line's
    "clear-all" operation of section 6. *)
Definition clear_row (r : ptr) (h : gmap loc row_t) : gmap loc row_t :=
  on_row (fun row => Row.mk None 0 true (Row.prev row) (Row.next row)) r h.

(** Modelled from the spec: [add_char] of buffer.c, the status line's
    "append-one-character" operation of section 6. *)
Definition add_char (r : ptr) (ch : ascii) (h : gmap loc row_t)
    : gmap loc row_t :=
  on_row (fun row =>
            Row.mk
              (match Row.current row with
               | None => Some (Echar.mk ch [] [])
               | Some e => Some (Echar.mk (Echar.c e) (Echar.prev e) (Echar.next e ++ [ch]))
               end)
              (wrap (Row.line_size row + 1)) true (Row.prev row) (Row.next row)) r h.

(** Modelled from the spec: [drop_char] of buffer.c, which "drops the last
    character of the status line's text" (section 4.6). *)
Definition drop_char (r : ptr) (h : gmap loc row_t) : gmap loc row_t :=
  on_row (fun row =>
            match Row.current row with
            | None => row
            | Some e =>
              Row.mk
                (match Echar.next e with
                 | [] => cell_at_end (rev (Echar.prev e))
                 | _ :: _ => Some (Echar.mk (Echar.c e) (Echar.prev e) (removelast (Echar.next e)))
                 end)
                (wrap (Row.line_size row - 1)) true (Row.prev row) (Row.next row)
            end) r h.

(** Modelled from the spec: [move_current] of buffer.c, "move cursor by
    one of up, down, left, right" (section 6); a move that has nowhere to go
    leaves the buffer as it is. *)
Definition move_current (b : buffer_t) (d : DIRECTION) : buffer_t :=
  match deref (Buffer.heap b) (Buffer.current b) with
  | None => b
  | Some row =>
    let to_row (p : ptr) (n : Z) :=
      match deref (Buffer.heap b) p with
      | None => b
      | Some row' =>
        Buffer.mk p n
          (match Row.current row' with
           | None => 0
           | Some e => Z.of_nat (length (Echar.prev e))
           end)
          (Buffer.num_rows b) (Buffer.status_row b) (Buffer.heap b)
      end in
    let to_cell (e : echar_t) (n : Z) :=
      Buffer.mk (Buffer.current b) (Buffer.current_row b) n
        (Buffer.num_rows b) (Buffer.status_row b)
        (on_row (fun row => Row.mk (Some e) (Row.line_size row) (Row.is_dirty row)
                              (Row.prev row) (Row.next row))
           (Buffer.current b) (Buffer.heap b)) in
    match d with
    | UP => to_row (Row.prev row) (wrap (Buffer.current_row b - 1))
    | DOWN => to_row (Row.next row) (wrap (Buffer.current_row b + 1))
    | LEFT =>
      match Row.current row with
      | Some (Echar.mk ch (p :: before) after) =>
        to_cell (Echar.mk p before (ch :: after)) (wrap (Buffer.current_char b - 1))
      | _ => b
      end
    | RIGHT =>
      match Row.current row with
      | Some (Echar.mk ch before (n :: after)) =>
        to_cell (Echar.mk n (ch :: before) after) (wrap (Buffer.current_char b + 1))
      | _ => b
      end
    end
  end.

(** Modelled from the spec: [append_char] of buffer.c, "insert one
    character at cursor" (section 6): the new cell follows the current one and
    becomes the current one. *)
Definition append_char (b : buffer_t) (ch : ascii) : buffer_t :=
  match deref (Buffer.heap b) (Buffer.current b) with
  | None => b
  | Some row =>
    let '(e, n) :=
      match Row.current row with
      | None => (Echar.mk ch [] [], 0)
      | Some e => (Echar.mk ch (Echar.c e :: Echar.prev e) (Echar.next e),
                   wrap (Buffer.current_char b + 1))
      end in
    Buffer.mk (Buffer.current b) (Buffer.current_row b) n
      (Buffer.num_rows b) (Buffer.status_row b)
      (on_row (fun row => Row.mk (Some e) (wrap (Row.line_size row + 1)) true
                            (Row.prev row) (Row.next row))
         (Buffer.current b) (Buffer.heap b))
  end.

(** Modelled from the spec: [delete_char] of buffer.c, "delete one
    character at cursor" (section 6): the cursor goes to the following cell, or to
    the preceding one when the last cell of the row was deleted. *)
Definition delete_char (b : buffer_t) : buffer_t :=
  match deref (Buffer.heap b) (Buffer.current b) ≫= Row.current with
  | None => b
  | Some e =>
    let '(cur, n) :=
      match Echar.next e, Echar.prev e with
      | ch :: after, before => (Some (Echar.mk ch before after), Buffer.current_char b)
      | [], ch :: before => (Some (Echar.mk ch before []), wrap (Buffer.current_char b - 1))
      | [], [] => (None, 0)
      end in
    Buffer.mk (Buffer.current b) (Buffer.current_row b) n
      (Buffer.num_rows b) (Buffer.status_row b)
      (on_row (fun row => Row.mk cur (wrap (Row.line_size row - 1)) true
                            (Row.prev row) (Row.next row))
         (Buffer.current b) (Buffer.heap b))
  end.

(** An address no row of the store has. *)
Definition fresh_loc (h : gmap loc row_t) : loc :=
  Pos.succ (map_fold (fun l _ m => Pos.max l m) 1%positive h).

(** Modelled from the spec: [split_row] of buffer.c, "split current line
    at cursor" (section 6): the current cell and what follows it move to a new row
    linked below, which becomes the current row. *)
Definition split_row (b : buffer_t) : buffer_t :=
  match Buffer.current b, deref (Buffer.heap b) (Buffer.current b) with
  | Some l, Some row =>
    let '(kept, moved) :=
      match Row.current row with
      | None => ([], [])
      | Some e => (rev (Echar.prev e), Echar.c e :: Echar.next e)
      end in
    let l' := fresh_loc (Buffer.heap b) in
    let upper :=
      Row.mk (cell_at_end kept) (Z.of_nat (length kept)) true (Row.prev row) (Some l') in
    let lower :=
      Row.mk (cell_at_start moved) (Z.of_nat (length moved)) true (Some l) (Row.next row) in
    let h := <[l' := lower]> (<[l := upper]> (Buffer.heap b)) in
    let h :=
      on_row (fun below => Row.mk (Row.current below) (Row.line_size below)
                             (Row.is_dirty below) (Some l') (Row.next below))
        (Row.next row) h in
    Buffer.mk (Some l') (wrap (Buffer.current_row b + 1)) 0
      (wrap (Buffer.num_rows b + 1)) (Buffer.status_row b) h
  | _, _ => b
  end.

(** Modelled from the spec: [join_row] of buffer.c, "join current line
    with previous" (section 6): the current row's characters are appended to the
    row above, which becomes the current row; the first row has nothing to
    join. *)
Definition join_row (b : buffer_t) : buffer_t :=
  match Buffer.current b, deref (Buffer.heap b) (Buffer.current b) with
  | Some l, Some row =>
    match Row.prev row, deref (Buffer.heap b) (Row.prev row) with
    | Some l', Some above =>
      let text := row_text above ++ row_text row in
      let cell :=
        match row_text row with
        | [] => cell_at_end (row_text above)
        | ch :: after => Some (Echar.mk ch (rev (row_text above)) after)
        end in
      let joined :=
        Row.mk cell (Z.of_nat (length text)) true (Row.prev above) (Row.next row) in
      let h := <[l' := joined]> (delete l (Buffer.heap b)) in
      let h :=
        on_row (fun below => Row.mk (Row.current below) (Row.line_size below)
                               (Row.is_dirty below) (Some l') (Row.next below))
          (Row.next row) h in
      Buffer.mk (Some l') (wrap (Buffer.current_row b - 1))
        (match cell with
         | None => 0
         | Some e => Z.of_nat (length (Echar.prev e))
         end)
        (wrap (Buffer.num_rows b - 1)) (Buffer.status_row b) h
    | _, _ => b
    end
  | _, _ => b
  end.

Definition ops : BufferOps :=
  Build_BufferOps move_current split_row join_row append_char delete_char
    clear_row add_char drop_char.

End Reference.

(** ** Quantities the properties are stated with *)

(** [d] is the number of decimal digits of [n]. *)
Definition decimal_digits (n d : Z) : Prop := 1 <= d /\ 10 ^ (d - 1) <= n < 10 ^ d.

(** The base column as the specification words it: the character offset,
    0 on an empty line, and the last character's offset when the offset
    runs past it. *)
Definition clamped_offset (line_size current_char : Z) : Z :=
  if line_size =? 0 then 0 else Z.min current_char (line_size - 1).

(** ** The document as a sequence of rows *)

(** [ls] lists the addresses of the document's rows, first to last: row [j]
    is linked to row [j - 1] through [prev] and to row [j + 1] through
    [next], the first and last rows ending the chain with [NULL]. *)
Definition linked (h : gmap loc row_t) (ls : list loc) : Prop :=
  forall (j : nat) (l : loc),
    ls !! j = Some l ->
    exists row,
      h !! l = Some row /\
      Row.prev row = match j with O => None | S j' => ls !! j' end /\
      Row.next row = ls !! S j.

(** What the display slot of document row [j] holds: the row and its
    1-based line number, or the empty marker past the end of the document. *)
Definition slot_of (ls : list loc) (j : nat) : window_t :=
  match ls !! j with
  | Some l => Window.mk (Some l) (Z.of_nat j + 1)
  | None => Window.mk None 0
  end.

(** The rows a viewport of [n] windows starting at row [top] displays. *)
Definition displayed (ls : list loc) (top n : Z) : list loc :=
  take (Z.to_nat n) (drop (Z.to_nat top) ls).

(** [h'] is [h] with the rows at the addresses [S] marked dirty. *)
Definition stamped (S : list loc) (h h' : gmap loc row_t) : Prop :=
  forall l,
    h' !! l = if decide (l ∈ S) then Row.set_is_dirty true <$> h !! l else h !! l.

(** Two row stores that differ in [is_dirty] flags only. *)
Definition same_rows (h h' : gmap loc row_t) : Prop :=
  forall l, Row.set_is_dirty false <$> h' !! l = Row.set_is_dirty false <$> h !! l.

(** ** The contract of the status line

    What [update_mode_status] relies on when it rewrites the status row
    (the "clear-all" and "append-one-character" operations of the status
    line): [clear_row] empties the row it is given, [add_char] appends one
    character to it, and neither touches any other row. *)
Class StatusLine `{BufferOps} : Prop := {
  clear_row_other (h : gmap loc row_t) (l p : loc) :
    p <> l -> clear_row (Some l) h !! p = h !! p;
  add_char_other (h : gmap loc row_t) (l p : loc) (ch : ascii) :
    p <> l -> add_char (Some l) ch h !! p = h !! p;
  clear_row_text (h : gmap loc row_t) (l : loc) (row : row_t) :
    h !! l = Some row ->
    exists row', clear_row (Some l) h !! l = Some row' /\ row_text row' = [];
  add_char_text (h : gmap loc row_t) (l : loc) (ch : ascii) (row : row_t) :
    h !! l = Some row ->
    exists row', add_char (Some l) ch h !! l = Some row' /\
                 row_text row' = row_text row ++ [ch] }.

(** The text [update_mode_status] shows in each mode, if any. *)
Definition banner (m : MODE) : option string :=
  match m with
  | INSERT_BACK | INSERT_FRONT => Some "-- INSERT --"%string
  | NORMAL => Some "-- NORMAL --"%string
  | EX => None
  end.

(** The row store after [update_mode_status] in mode [m], the status row
    being at [sr]. *)
Definition status_heap `{BufferOps} (m : MODE) (sr : loc) (h : gmap loc row_t)
    : gmap loc row_t :=
  match banner m with
  | Some text => write_text (Some sr) text h
  | None => h
  end.

(** The status text after [update_mode_status] in mode [m], [old] being the
    text before. *)
Definition status_text (m : MODE) (old : list ascii) : list ascii :=
  match banner m with
  | Some text => list_ascii_of_string text
  | None => old
  end.

(** ** Sample states *)

(** A row holding [text] with the cursor on its first character. *)
Definition line (text : string) (prev next : ptr) : row_t :=
  Row.mk (Reference.cell_at_start (list_ascii_of_string text))
    (Z.of_nat (String.length text)) false prev next.

(** A viewport of [n] windows, none linked yet. *)
Definition blank_screen (n : nat) : screen_t :=
  Screen.mk (Z.of_nat n) (replicate n (Window.mk None 0)) (Window.mk None 0).

(** A state that only carries scroll data: [top_row], [current_row] and
    [num_windows]. *)
Definition scroll_state (top current_row num_windows : Z) (flag : bool) : state_t :=
  mk_state NORMAL 0 0 top 0 flag
    (Buffer.mk None current_row 0 1 None ∅)
    (Screen.mk num_windows [] (Window.mk None 0)) "000"%char.

(** A state whose document has [n] rows. *)
Definition rows_state (n : Z) : state_t :=
  mk_state NORMAL 0 0 0 0 false
    (Buffer.mk None 0 0 n None ∅) (blank_screen 1) "000"%char.

(** Rows holding [texts], linked first to last, at the addresses from [l] on. *)
Fixpoint rows_from (l : loc) (prev : ptr) (texts : list string) : gmap loc row_t :=
  match texts with
  | [] => ∅
  | t :: ts =>
    <[l := line t prev (match ts with [] => None | _ :: _ => Some (Pos.succ l) end)]>
      (rows_from (Pos.succ l) (Some l) ts)
  end.

(** The ten-row document [L0 .. L9] at the addresses 1 to 10, with the status
    row at address 100. *)
Definition ten_rows : gmap loc row_t :=
  <[100%positive := line "" None None]>
    (rows_from 1%positive None ["L0"; "L1"; "L2"; "L3"; "L4"; "L5"; "L6"; "L7"; "L8"; "L9"]%string).

Definition ten_rows_addresses : list loc :=
  [1; 2; 3; 4; 5; 6; 7; 8; 9; 10]%positive.

(** An editor on [ten_rows] with four windows and the cursor on row 5. *)
Definition ten_rows_state (m : MODE) (top : Z) (flag : bool) : state_t :=
  mk_state m 0 0 top 0 flag
    (Buffer.mk (Some 6%positive) 5 0 10 (Some 100%positive) ten_rows)
    (blank_screen 4) "000"%char.

(** The cell of [ch] between the characters [before] and [after] of a row. *)
Definition cell (before : string) (ch : ascii) (after : string) : echar_t :=
  Echar.mk ch (rev (list_ascii_of_string before)) (list_ascii_of_string after).

(** An editor on the single row [text], the cursor cell being [cell] at
    offset [offset]. *)
Definition one_row_state (m : MODE) (text : string) (cell : option echar_t)
    (offset : Z) : state_t :=
  mk_state m 0 0 0 0 false
    (Buffer.mk (Some 1%positive) 0 offset 1 (Some 100%positive)
       (<[100%positive := line "" None None]>
          {[1%positive := Row.mk cell (Z.of_nat (String.length text)) false None None]}))
    (blank_screen 4) "000"%char.

(** The row "hello" in [INSERT_BACK] mode with the cursor cell on its fourth
    character: one character follows it. *)
Definition hello_on_fourth : state_t :=
  one_row_state INSERT_BACK "hello" (Some (cell "hel" "l" "o")) 3.

(** [ten_rows_state] scrolled too far down, and the state one run of
    [update_state] makes of it. *)
Definition ten_rows_scrolled : state_t := ten_rows_state NORMAL 8 true.

Definition ten_rows_recomputed : state_t :=
  default ten_rows_scrolled (update_state (H := Reference.ops) ten_rows_scrolled).

(** [ten_rows_state] in [EX] mode after its cursor step. *)
Definition ten_rows_command_line : state_t :=
  default (ten_rows_state EX 3 false)
    (update_cursor_position (ten_rows_state EX 3 false)).

(** [ten_rows_state] after its display rows are mapped. *)
Definition ten_rows_relinked : state_t :=
  default (ten_rows_state NORMAL 3 true)
    (update_scr_windows (ten_rows_state NORMAL 3 true)).

(** [ten_rows_state] with the flag clear and row 5 in view, recomputed. *)
Definition ten_rows_unchanged : state_t :=
  default (ten_rows_state NORMAL 3 false)
    (update_state (H := Reference.ops) (ten_rows_state NORMAL 3 false)).

(** * Properties *)

(** Settle the mode tests of a goal once the mode is known. *)
Ltac mode_test :=
  repeat match goal with
  | |- context [bool_decide (?a = ?b)] =>
    first [ rewrite (bool_decide_eq_true_2 (a = b)) by reflexivity
          | rewrite (bool_decide_eq_false_2 (a = b)) by discriminate ]
  end.

Ltac in_mode Hmode := repeat (progress (cbn; rewrite ?Hmode; mode_test)).

(** ** Machine integers *)

Lemma wrap_small z : is_size_t z -> wrap z = z.
Proof. unfold is_size_t, wrap, SIZE_MAX. intros. apply Z.mod_small. lia. Qed.

Lemma wrap_wrap_l a b : wrap (wrap a + b) = wrap (a + b).
Proof. unfold wrap. apply Zplus_mod_idemp_l. Qed.

Lemma wrap_below z : - (SIZE_MAX + 1) <= z < 0 -> wrap z = z + (SIZE_MAX + 1).
Proof.
  unfold wrap, SIZE_MAX. intros.
  symmetry. apply (Z.mod_unique _ _ (-1)); lia.
Qed.

Lemma wrap_above z :
  SIZE_MAX < z <= 2 * SIZE_MAX + 1 -> wrap z = z - (SIZE_MAX + 1).
Proof.
  unfold wrap, SIZE_MAX. intros.
  symmetry. apply (Z.mod_unique _ _ 1); lia.
Qed.

Lemma wrap_line_number t c i :
  is_size_t (t + c - i + 1) -> wrap (wrap (wrap (t + c) - i) + 1) = t + c - i + 1.
Proof.
  intros Hfit. rewrite wrap_wrap_l.
  replace (wrap (t + c) - i + 1) with (wrap (t + c) + (1 - i)) by lia.
  rewrite wrap_wrap_l.
  replace (t + c + (1 - i)) with (t + c - i + 1) by lia.
  apply wrap_small, Hfit.
Qed.

(** ** Viewport controller: [update_top_row] *)

Section Scroll.
Variable st : state_t.
Let t := top_row st.
Let c := Buffer.current_row (buf st).
Let n := Screen.num_windows (scr st).
Hypothesis top_ok : is_size_t t.
Hypothesis row_ok : is_size_t c.
Hypothesis windows_ok : is_size_t n.

Lemma update_top_row_frame :
  mode (update_top_row st) = mode st /\
  buf (update_top_row st) = buf st /\
  scr (update_top_row st) = scr st /\
  padding_front (update_top_row st) = padding_front st.
Proof.
  unfold update_top_row.
  repeat match goal with |- context [if ?b then _ else _] => destruct b end;
    auto.
Qed.

Lemma update_top_row_le : top_row (update_top_row st) <= c.
Proof.
  unfold update_top_row. fold c n t.
  destruct (c >=? wrap (t + n)); cbn [top_row set_top_row set_to_refresh buf];
    fold c;
    match goal with |- context [?a <? ?b] => destruct (Z.ltb_spec a b) end;
    cbn; fold c; lia.
Qed.

Lemma update_top_row_visible :
  1 <= n ->
  top_row (update_top_row st) <= c < top_row (update_top_row st) + n.
Proof.
  intros Hn. split; [apply update_top_row_le|].
  unfold update_top_row. fold c n t.
  unfold is_size_t in *.
  destruct (Z.geb_spec c (wrap (t + n))) as [Hge|Hlt];
    cbn [top_row set_top_row set_to_refresh buf]; fold c.
  - rewrite wrap_wrap_l.
    replace (c - n + 1) with (c - (n - 1)) by lia.
    destruct (Z_lt_le_dec c (n - 1)).
    + rewrite wrap_below by lia.
      destruct (Z.ltb_spec c (c - (n - 1) + (SIZE_MAX + 1))); cbn; fold c; lia.
    + rewrite wrap_small by (unfold is_size_t; lia).
      destruct (Z.ltb_spec c (c - (n - 1))); cbn; fold c; lia.
  - fold t. destruct (Z.ltb_spec c t); cbn; fold c t; [lia|].
    destruct (Z_le_dec (t + n) SIZE_MAX).
    + rewrite wrap_small in Hlt by (unfold is_size_t; lia). lia.
    + rewrite wrap_above in Hlt by lia. lia.
Qed.

Lemma update_top_row_untouched :
  t <= c < t + n -> t + n <= SIZE_MAX -> update_top_row st = st.
Proof.
  intros Hin Hfit. unfold update_top_row. fold c n t.
  unfold is_size_t in *.
  rewrite wrap_small by (unfold is_size_t; lia).
  destruct (Z.geb_spec c (t + n)); [lia|]. fold t.
  destruct (Z.ltb_spec c t); [lia|]. reflexivity.
Qed.

End Scroll.

(** C2, as amended: with at least one window the current row is visible
    after [update_top_row]; and when it was visible before, and
    [top_row + num_windows] does not overflow [size_t], neither [top_row] nor
    the relayout flag changes. *)
Theorem update_top_row_keeps_current_row_visible (st : state_t) :
  is_size_t (top_row st) ->
  is_size_t (Buffer.current_row (buf st)) ->
  is_size_t (Screen.num_windows (scr st)) ->
  1 <= Screen.num_windows (scr st) ->
  (top_row (update_top_row st) <= Buffer.current_row (buf st)
     < top_row (update_top_row st) + Screen.num_windows (scr st)) /\
  (top_row st <= Buffer.current_row (buf st)
     < top_row st + Screen.num_windows (scr st) ->
   top_row st + Screen.num_windows (scr st) <= SIZE_MAX ->
   top_row (update_top_row st) = top_row st /\
   to_refresh (update_top_row st) = to_refresh st).
Proof.
  intros Ht Hc Hn Hpos. split.
  - apply update_top_row_visible; assumption.
  - intros Hin Hfit. rewrite update_top_row_untouched by assumption. auto.
Qed.

Lemma update_top_row_keeps_current_row_visible_witness :
  (top_row (update_top_row (scroll_state 3 9 4 false)) <= 9
     < top_row (update_top_row (scroll_state 3 9 4 false)) + 4) /\
  top_row (update_top_row (scroll_state 3 5 4 false)) = 3 /\
  to_refresh (update_top_row (scroll_state 3 5 4 false)) = false.
Proof.
  split.
  - apply (update_top_row_keeps_current_row_visible (scroll_state 3 9 4 false));
      unfold is_size_t, SIZE_MAX; simpl; lia.
  - apply (update_top_row_keeps_current_row_visible (scroll_state 3 5 4 false));
      unfold is_size_t, SIZE_MAX; simpl; lia.
Defined.

(** C2, as stated, fails twice.  With no window the current row is not
    below [top_row + num_windows] after the call.  And a visible current row
    still scrolls, setting the flag, when [top_row + num_windows] wraps
    around. *)
Lemma update_top_row_not_visible_or_touched :
  (top_row (update_top_row (scroll_state 0 0 0 false)) + 0 <= 0) /\
  (SIZE_MAX <= SIZE_MAX < SIZE_MAX + 2) /\
  top_row (update_top_row (scroll_state SIZE_MAX SIZE_MAX 2 false)) = SIZE_MAX - 1 /\
  to_refresh (update_top_row (scroll_state SIZE_MAX SIZE_MAX 2 false)) = true.
Proof. vm_compute. repeat split; congruence. Qed.

(** ** Gutter width: [update_padding_front] *)

Lemma count_digits_loop max_row num_digits :
  count_digits max_row num_digits =
  if decide (max_row > 0)
  then count_digits (max_row / 10) (wrap (num_digits + 1))
  else num_digits.
Proof.
  rewrite count_digits_equation_1.
  destruct (decide (max_row > 0)); reflexivity.
Qed.

Lemma decimal_digits_unique n d d' :
  decimal_digits n d -> decimal_digits n d' -> d = d'.
Proof.
  intros [Hd [Hlo Hhi]] [Hd' [Hlo' Hhi']].
  assert (d - 1 < d') by (apply (Z.pow_lt_mono_r_iff 10); lia).
  assert (d' - 1 < d) by (apply (Z.pow_lt_mono_r_iff 10); lia).
  lia.
Qed.

Lemma decimal_digits_step n d :
  10 <= n -> decimal_digits (n / 10) d -> decimal_digits n (d + 1).
Proof.
  intros Hn [Hd [Hlo Hhi]]. split; [lia|].
  replace (d + 1 - 1) with (Z.succ (d - 1)) by lia.
  replace (d + 1) with (Z.succ d) by lia.
  rewrite !Z.pow_succ_r by lia.
  pose proof (Z.div_mod n 10 ltac:(lia)).
  pose proof (Z.mod_pos_bound n 10 ltac:(lia)).
  lia.
Qed.

(** The loop counts the digits of a positive number, and counts none for 0. *)
Lemma count_digits_spec n :
  0 <= n ->
  forall acc, 0 <= acc -> acc + n <= SIZE_MAX ->
  exists d, 0 <= d <= n /\ count_digits n acc = acc + d /\
            (n = 0 -> d = 0) /\ (0 < n -> decimal_digits n d).
Proof.
  intros Hn. generalize Hn. pattern n. apply Z_lt_induction; [|exact Hn].
  clear n Hn. intros n IH Hn acc Hacc Hfit.
  rewrite count_digits_loop. destruct (decide (n > 0)) as [Hpos|Hzero].
  - pose proof (Z.div_mod n 10 ltac:(lia)) as Hdiv.
    pose proof (Z.mod_pos_bound n 10 ltac:(lia)) as Hmod.
    rewrite wrap_small by (unfold is_size_t; lia).
    destruct (IH (n / 10) ltac:(lia) ltac:(lia) (acc + 1) ltac:(lia) ltac:(lia))
      as (d & Hd & Heq & Hz & Hp).
    exists (d + 1). repeat split; try lia.
    + destruct (Z_lt_le_dec n 10).
      * assert (n / 10 = 0) as Hq by lia. rewrite (Hz Hq). simpl. lia.
      * apply decimal_digits_step; [lia|]. apply Hp. lia.
    + destruct (Z_lt_le_dec n 10).
      * assert (n / 10 = 0) as Hq by lia. rewrite (Hz Hq). simpl. lia.
      * apply decimal_digits_step; [lia|]. apply Hp. lia.
  - exists 0. repeat split; try lia.
Qed.

Lemma decimal_digits_bound n d : is_size_t n -> decimal_digits n d -> d <= 20.
Proof.
  unfold is_size_t, SIZE_MAX. intros Hn [Hd [Hlo _]].
  assert (d - 1 < 20); [|lia].
  apply (Z.pow_lt_mono_r_iff 10); lia.
Qed.

Lemma padding_front_digits st d :
  is_size_t (Buffer.num_rows (buf st)) ->
  decimal_digits (Buffer.num_rows (buf st)) d ->
  padding_front (update_padding_front st) = d + 1.
Proof.
  intros Hn Hd. unfold update_padding_front. cbn [padding_front set_padding_front].
  assert (0 < Buffer.num_rows (buf st)) as Hpos.
  { destruct Hd as [H1 [Hlo _]].
    pose proof (Z.pow_pos_nonneg 10 (d - 1) ltac:(lia) ltac:(lia)). lia. }
  destruct (count_digits_spec (Buffer.num_rows (buf st)) ltac:(lia) 0 ltac:(lia))
    as (d' & Hd' & Heq & _ & Hp); [unfold is_size_t in Hn; lia|].
  rewrite Heq, (decimal_digits_unique _ _ _ (Hp Hpos) Hd).
  pose proof (decimal_digits_bound _ _ Hn Hd).
  destruct Hd. apply wrap_small. unfold is_size_t, SIZE_MAX. lia.
Qed.

(** C4, as amended: for a document with at least one row the gutter
    width is the number of decimal digits of the row count plus one, hence
    at least 2; 9 rows give width 2 and 10 rows give width 3. *)
Theorem gutter_width_is_digits_plus_one (st : state_t) :
  1 <= Buffer.num_rows (buf st) <= SIZE_MAX ->
  (exists d, decimal_digits (Buffer.num_rows (buf st)) d /\
             padding_front (update_padding_front st) = d + 1) /\
  2 <= padding_front (update_padding_front st) /\
  (Buffer.num_rows (buf st) = 9 -> padding_front (update_padding_front st) = 2) /\
  (Buffer.num_rows (buf st) = 10 -> padding_front (update_padding_front st) = 3).
Proof.
  intros Hn.
  assert (is_size_t (Buffer.num_rows (buf st))) as Hsz by (unfold is_size_t; lia).
  destruct (count_digits_spec (Buffer.num_rows (buf st)) ltac:(lia) 0 ltac:(lia))
    as (d & _ & _ & _ & Hp); [lia|].
  specialize (Hp ltac:(lia)).
  pose proof (padding_front_digits st d Hsz Hp) as Hw.
  repeat split.
  - exists d. split; [exact Hp | exact Hw].
  - destruct Hp. lia.
  - intros H9. apply (padding_front_digits st 1 Hsz).
    rewrite H9. unfold decimal_digits. simpl. lia.
  - intros H10. apply (padding_front_digits st 2 Hsz).
    rewrite H10. unfold decimal_digits. simpl. lia.
Qed.

Lemma gutter_width_is_digits_plus_one_witness :
  1 <= Buffer.num_rows (buf (rows_state 10)) <= SIZE_MAX /\
  padding_front (update_padding_front (rows_state 10)) = 3 /\
  padding_front (update_padding_front (rows_state 9)) = 2.
Proof.
  assert (1 <= Buffer.num_rows (buf (rows_state 10)) <= SIZE_MAX) as H10
    by (unfold SIZE_MAX; simpl; lia).
  assert (1 <= Buffer.num_rows (buf (rows_state 9)) <= SIZE_MAX) as H9
    by (unfold SIZE_MAX; simpl; lia).
  split; [exact H10|]. split.
  - apply (gutter_width_is_digits_plus_one (rows_state 10) H10). reflexivity.
  - apply (gutter_width_is_digits_plus_one (rows_state 9) H9). reflexivity.
Defined.

(** C4, as stated, fails on a document that reports no rows: the loop
    counts no digit and the width is 1. *)
Lemma gutter_width_of_no_rows :
  Buffer.num_rows (buf (rows_state 0)) = 0 /\
  padding_front (update_padding_front (rows_state 0)) = 1.
Proof. split; reflexivity. Qed.

(** ** The order of the steps of [update_state] *)

(** A sequence of three total steps, a guarded step and a last step, as
    [update_state_traced] strings them together. *)
Lemma traced_pipeline (s1 s2 s3 s4 s5 : step) (f1 f2 f3 f : state_t -> state_t)
    (c : state_t -> bool) (g k : state_t -> option state_t) (st : state_t) :
  seq (call s1 (pure_step f1))
    (seq (call s2 (pure_step f2))
       (seq (call s3 (pure_step f3))
          (seq (when c (seq (call s4 g) (assign f))) (call s5 k)))) st =
  let st3 := f3 (f2 (f1 st)) in
  st4 ← (if c st3 then f <$> g st3 else Some st3);
  st5 ← k st4;
  Some (st5, [s1; s2; s3] ++ (if c st3 then [s4] else []) ++ [s5]).
Proof.
  unfold seq, call, when, assign, pure_step. cbn.
  destruct (c _); cbn.
  - destruct (g _); cbn; [|reflexivity]. destruct (k _); reflexivity.
  - destruct (k _); reflexivity.
Qed.

Lemma update_padding_front_flag (st : state_t) :
  to_refresh (update_padding_front st) = to_refresh st.
Proof. reflexivity. Qed.

Section Order.
Context `{BufferOps}.

Lemma update_state_traced_unfold st :
  update_state_traced st =
  let st3 := update_padding_front (update_top_row (update_mode_status st)) in
  st4 ← (if to_refresh st3
         then set_to_refresh false <$> update_scr_windows st3
         else Some st3);
  st5 ← update_cursor_position st4;
  Some (st5, [StatusText; ScrollPosition; PaddingWidth]
               ++ (if to_refresh st3 then [DisplayRows] else [])
               ++ [CursorCoordinates]).
Proof. apply traced_pipeline. Qed.

Lemma update_state_unfold st :
  update_state st =
  let st3 := update_padding_front (update_top_row (update_mode_status st)) in
  st4 ← (if to_refresh st3
         then set_to_refresh false <$> update_scr_windows st3
         else Some st3);
  update_cursor_position st4.
Proof.
  unfold update_state. rewrite update_state_traced_unfold. cbv zeta.
  generalize (update_padding_front (update_top_row (update_mode_status st))).
  intros st3. destruct (to_refresh st3); cbn.
  - destruct (update_scr_windows st3) as [st4|]; cbn; [|reflexivity].
    destruct (update_cursor_position _); reflexivity.
  - destruct (update_cursor_position st3); reflexivity.
Qed.

End Order.

(** C3, as amended: every call of [update_state] that returns has run its
    steps in the order status text, scroll position, padding width, then
    the display-row mapping exactly when the relayout flag is set after
    scrolling, then cursor coordinates. *)
Theorem update_state_step_order `{BufferOps} (st st' : state_t) (tr : list step) :
  update_state_traced st = Some (st', tr) ->
  tr = [StatusText; ScrollPosition; PaddingWidth]
         ++ (if to_refresh (update_top_row (update_mode_status st))
             then [DisplayRows] else [])
         ++ [CursorCoordinates].
Proof.
  rewrite update_state_traced_unfold. cbv zeta.
  rewrite update_padding_front_flag.
  generalize (update_padding_front (update_top_row (update_mode_status st))).
  generalize (to_refresh (update_top_row (update_mode_status st))).
  intros flag st3 Hrun. destruct flag; cbn in Hrun.
  - destruct (update_scr_windows st3) as [st4|]; cbn in Hrun; [|discriminate].
    destruct (update_cursor_position _); cbn in Hrun; [|discriminate].
    injection Hrun as _ <-. reflexivity.
  - destruct (update_cursor_position st3); cbn in Hrun; [|discriminate].
    injection Hrun as _ <-. reflexivity.
Qed.

Lemma update_state_step_order_witness :
  [StatusText; ScrollPosition; PaddingWidth; CursorCoordinates]
  = [StatusText; ScrollPosition; PaddingWidth]
      ++ (if to_refresh
               (update_top_row
                  (update_mode_status (H := Reference.ops)
                     (ten_rows_state NORMAL 3 false)))
          then [DisplayRows] else [])
      ++ [CursorCoordinates].
Proof.
  assert (Hrun : { st' |
            update_state_traced (H := Reference.ops) (ten_rows_state NORMAL 3 false)
            = Some (st', [StatusText; ScrollPosition; PaddingWidth; CursorCoordinates]) }).
  { eexists. vm_compute. reflexivity. }
  destruct Hrun as [st' Hrun].
  exact (update_state_step_order (H := Reference.ops) _ _ _ Hrun).
Defined.

(** C3, as stated, fails: the padding width is derived third, after the
    status text and the scroll position. *)
Lemma update_state_padding_not_first :
  snd <$> update_state_traced (H := Reference.ops) (ten_rows_state NORMAL 3 true)
  = Some [StatusText; ScrollPosition; PaddingWidth; DisplayRows; CursorCoordinates].
Proof. vm_compute. reflexivity. Qed.

(** ** Cursor projector: [update_cursor_position] *)

(** The column [update_cursor_position] derives outside [EX] mode: the
    current character offset is taken as it is whenever the row is not empty
    (the test [st->cx >= line_size] reads the [cx] that was just zeroed, so
    its branch is never taken). *)
Lemma update_cursor_position_column (st : state_t) (row : row_t) :
  deref (Buffer.heap (buf st)) (Buffer.current (buf st)) = Some row ->
  mode st <> EX ->
  0 <= Row.line_size row ->
  exists st',
    update_cursor_position st = Some st' /\
    cy st' = wrap (Buffer.current_row (buf st) - top_row st) /\
    cx st' =
      wrap ((if Row.line_size row =? 0 then 0 else Buffer.current_char (buf st))
            + (if bool_decide (mode st = INSERT_BACK) && negb (Row.line_size row =? 0)
               then 1 else 0)
            + padding_front st + 1).
Proof.
  intros Hrow Hmode Hsize. unfold update_cursor_position. rewrite Hrow. cbn.
  destruct (Z.eqb_spec (Row.line_size row) 0) as [Hz|Hnz]; cbn.
  - rewrite andb_false_r. cbn.
    rewrite bool_decide_eq_false_2 by exact Hmode. cbn.
    eexists. split; [reflexivity|]. cbn. split; [reflexivity|].
    rewrite wrap_wrap_l. f_equal.
  - destruct (Z.geb_spec 0 (Row.line_size row)); [lia|]. cbn.
    rewrite andb_true_r.
    destruct (bool_decide (mode st = INSERT_BACK)); cbn;
      rewrite bool_decide_eq_false_2 by exact Hmode; cbn;
      (eexists; split; [reflexivity|]); cbn; (split; [reflexivity|]);
      rewrite ?wrap_wrap_l, <- ?Z.add_assoc, ?wrap_wrap_l; f_equal; lia.
Qed.

(** X1: within the line the code's column is the specified one: outside [EX]
    mode, when the offset is on a character of the row (or the row is
    empty), the row is [current_row - top_row] and the column is
    [padding_front + 1] plus the clamped offset, plus 1 in [INSERT_BACK]
    mode on a non-empty row. *)
Theorem cursor_position_within_line (st : state_t) (row : row_t) :
  deref (Buffer.heap (buf st)) (Buffer.current (buf st)) = Some row ->
  mode st <> EX ->
  0 <= Buffer.current_char (buf st) ->
  (Row.line_size row = 0 \/ Buffer.current_char (buf st) < Row.line_size row) ->
  0 <= top_row st <= Buffer.current_row (buf st) ->
  Buffer.current_row (buf st) <= SIZE_MAX ->
  0 <= padding_front st ->
  Buffer.current_char (buf st) + padding_front st + 2 <= SIZE_MAX ->
  exists st',
    update_cursor_position st = Some st' /\
    cy st' = Buffer.current_row (buf st) - top_row st /\
    cx st' =
      padding_front st + 1
      + clamped_offset (Row.line_size row) (Buffer.current_char (buf st))
      + (if bool_decide (mode st = INSERT_BACK) && negb (Row.line_size row =? 0)
         then 1 else 0).
Proof.
  intros Hrow Hmode Hchar Hin Htop Hc Hpad Hfit.
  assert (0 <= Row.line_size row) as Hsize by (destruct Hin; lia).
  destruct (update_cursor_position_column st row Hrow Hmode Hsize)
    as (st' & Hrun & Hcy & Hcx).
  exists st'. split; [exact Hrun|]. split.
  - rewrite Hcy. apply wrap_small. unfold is_size_t. lia.
  - rewrite Hcx. unfold clamped_offset.
    destruct (Z.eqb_spec (Row.line_size row) 0) as [Hz|Hnz].
    + rewrite andb_false_r. rewrite wrap_small by (unfold is_size_t; lia). lia.
    + rewrite andb_true_r, Z.min_l by lia.
      destruct (bool_decide (mode st = INSERT_BACK));
        rewrite wrap_small by (unfold is_size_t; lia); lia.
Qed.

Lemma cursor_position_within_line_witness :
  (exists st',
     update_cursor_position
       (set_padding_front 2
          (one_row_state INSERT_FRONT "hello" (Some (cell "he" "l" "lo")) 2))
     = Some st' /\ cy st' = 0 - 0 /\ cx st' = 2 + 1 + 2 + 0) /\
  (exists st',
     update_cursor_position
       (set_padding_front 2
          (one_row_state INSERT_BACK "hello" (Some (cell "he" "l" "lo")) 2))
     = Some st' /\ cy st' = 0 - 0 /\ cx st' = 2 + 1 + 2 + 1).
Proof.
  split.
  - apply (cursor_position_within_line
             (set_padding_front 2
                (one_row_state INSERT_FRONT "hello" (Some (cell "he" "l" "lo")) 2))
             (Row.mk (Some (cell "he" "l" "lo")) 5 false None None) eq_refl);
      unfold SIZE_MAX; simpl; (discriminate || lia).
  - apply (cursor_position_within_line
             (set_padding_front 2
                (one_row_state INSERT_BACK "hello" (Some (cell "he" "l" "lo")) 2))
             (Row.mk (Some (cell "he" "l" "lo")) 5 false None None) eq_refl);
      unfold SIZE_MAX; simpl; (discriminate || lia).
Defined.

(** C1 fails on the code: on a 5-character row with the character offset
    at 7 the column is [7 + padding_front + 1 = 10], where the offset
    clamped to the last character gives [4 + padding_front + 1 = 7]. *)
Theorem cursor_column_past_line_end_not_clamped :
  (Row.line_size <$>
     deref (Buffer.heap (buf (one_row_state NORMAL "hello" (Some (cell "" "h" "ello")) 7)))
       (Some 1%positive)) = Some 5 /\
  (fun st' => (padding_front st', cx st', cy st')) <$>
     update_state (H := Reference.ops)
       (one_row_state NORMAL "hello" (Some (cell "" "h" "ello")) 7)
  = Some (2, 10, 0) /\
  2 + 1 + clamped_offset 5 7 = 7.
Proof. repeat split; vm_compute; reflexivity. Qed.

(** ** Line break: [handle_enter] *)

(** C10: in every mode a call of [handle_enter] that returns has split a
    row and set the relayout flag.  Outside [INSERT_BACK] mode, so in
    [NORMAL] and [EX] mode too, it always returns, and the split is that of
    the buffer as it stands, at its current cursor. *)
Theorem handle_enter_splits_in_every_mode `{BufferOps} (st : state_t) :
  (mode st <> INSERT_BACK ->
   handle_enter st = Some (set_to_refresh true (set_buf (split_row (buf st)) st))) /\
  (forall st', handle_enter st = Some st' ->
     to_refresh st' = true /\
     (buf st' = split_row (buf st) \/
      buf st' = split_row (move_current (buf st) RIGHT) \/
      buf st' = delete_char (split_row (append_char (buf st) "0")))).
Proof.
  unfold handle_enter. split.
  - intros Hmode. rewrite !bool_decide_eq_false_2 by exact Hmode. reflexivity.
  - intros st'. destruct (bool_decide (mode st = INSERT_BACK)); cbn.
    + destruct (deref _ _) as [row|]; cbn; [|discriminate].
      destruct (_ =? wrap _); cbn.
      * intros [= <-]. cbn. auto.
      * destruct (Row.line_size row =? 0); cbn; intros [= <-]; cbn; auto.
    + intros [= <-]. cbn. auto.
Qed.

(** ** Backward delete: [handle_backspace] *)

Section Backspace.
Context `{BufferOps}.

(** The body of the handler mode by mode. *)
Lemma handle_backspace_body_ex self (st : state_t) :
  mode st = EX ->
  handle_backspace_body self st =
  Returned
    (set_buf
       (Buffer.set_heap
          (drop_char (Buffer.status_row (move_current (buf st) LEFT))
             (Buffer.heap (move_current (buf st) LEFT)))
          (move_current (buf st) LEFT)) st).
Proof.
  intros Hmode. unfold handle_backspace_body. in_mode Hmode. reflexivity.
Qed.

Lemma handle_backspace_body_normal self (st : state_t) :
  mode st = NORMAL -> handle_backspace_body self st = Returned st.
Proof.
  intros Hmode. unfold handle_backspace_body. in_mode Hmode. reflexivity.
Qed.

Lemma handle_backspace_body_front self (st : state_t) :
  mode st = INSERT_FRONT ->
  handle_backspace_body self st =
  match deref (Buffer.heap (buf st)) (Buffer.current (buf st)) ≫= Row.current with
  | None => Fault
  | Some e =>
    match Echar.prev e with
    | [] => Returned (set_to_refresh true (set_buf (join_row (buf st)) st))
    | _ :: _ => Returned (set_buf (delete_char (move_current (buf st) LEFT)) st)
    end
  end.
Proof.
  intros Hmode. unfold handle_backspace_body. in_mode Hmode.
  destruct (deref _ _ ≫= Row.current) as [e|]; [|reflexivity].
  destruct (Echar.prev e); reflexivity.
Qed.

Lemma handle_backspace_body_back self (st : state_t) :
  mode st = INSERT_BACK ->
  handle_backspace_body self st =
  match deref (Buffer.heap (buf st)) (Buffer.current (buf st)) with
  | None => Fault
  | Some row =>
    match Row.current row with
    | None => Returned (set_to_refresh true (set_buf (join_row (buf st)) st))
    | Some _ =>
      if Buffer.current_char (buf st) =? 0 then
        if Row.line_size row =? 1
        then Returned (set_buf (delete_char (buf st)) st)
        else self (set_buf (move_current (buf st) RIGHT) (set_mode INSERT_FRONT st))
      else
        match deref (Buffer.heap (delete_char (buf st))) (Buffer.current (buf st))
                ≫= Row.current with
        | None => Fault
        | Some e =>
          match Echar.next e with
          | _ :: _ =>
            Returned (set_buf (move_current (delete_char (buf st)) LEFT) st)
          | [] => Returned (set_buf (delete_char (buf st)) st)
          end
        end
    end
  end.
Proof.
  intros Hmode. unfold handle_backspace_body. in_mode Hmode.
  destruct (deref _ _) as [row|]; [|reflexivity].
  destruct (Row.current row); [|reflexivity].
  destruct (_ =? 0); [reflexivity|].
  destruct (deref _ _ ≫= Row.current) as [e'|]; [|reflexivity].
  destruct (Echar.next e'); reflexivity.
Qed.

(** In [INSERT_FRONT] mode the handler does not call itself. *)
Lemma handle_backspace_front_flat (st : state_t) (depth : nat) :
  mode st = INSERT_FRONT ->
  handle_backspace (S depth) st = handle_backspace 1 st /\
  handle_backspace 1 st <> TooDeep.
Proof.
  intros Hmode. cbn [handle_backspace].
  rewrite !handle_backspace_body_front by exact Hmode.
  destruct (deref _ _ ≫= Row.current) as [e|]; [|by split].
  destruct (Echar.prev e); by split.
Qed.

Lemma handle_backspace_depth (st : state_t) (depth : nat) :
  handle_backspace (S (S depth)) st = handle_backspace 2 st /\
  handle_backspace 2 st <> TooDeep.
Proof.
  destruct (mode st) eqn:Hmode.
  - cbn [handle_backspace].
    rewrite !handle_backspace_body_normal by exact Hmode. by split.
  - destruct (handle_backspace_front_flat st (S depth) Hmode) as [-> _].
    destruct (handle_backspace_front_flat st 1 Hmode) as [-> Hne]. by split.
  - change (handle_backspace (S (S depth)) st)
      with (handle_backspace_body (handle_backspace (S depth)) st).
    change (handle_backspace 2 st)
      with (handle_backspace_body (handle_backspace 1) st).
    rewrite !handle_backspace_body_back by exact Hmode.
    destruct (deref _ _) as [row|]; [|by split].
    destruct (Row.current row); [|by split].
    destruct (_ =? 0).
    + destruct (_ =? 1); [by split|].
      apply handle_backspace_front_flat. reflexivity.
    + destruct (deref _ _ ≫= Row.current) as [e'|]; [|by split].
      destruct (Echar.next e'); by split.
  - cbn [handle_backspace].
    rewrite !handle_backspace_body_ex by exact Hmode. by split.
Qed.

End Backspace.

(** C7: in [INSERT_FRONT] mode, with the cursor on a cell of the current
    row, [handle_backspace] joins the row with the previous one and sets the
    relayout flag, changing nothing else, exactly when no cell precedes the
    cursor; otherwise it moves left and deletes the character then under
    the cursor. *)
Theorem handle_backspace_insert_front `{BufferOps} (st : state_t) (depth : nat)
    (row : row_t) (e : echar_t) :
  mode st = INSERT_FRONT ->
  deref (Buffer.heap (buf st)) (Buffer.current (buf st)) = Some row ->
  Row.current row = Some e ->
  handle_backspace (S depth) st =
  Returned
    (match Echar.prev e with
     | [] => set_to_refresh true (set_buf (join_row (buf st)) st)
     | _ :: _ => set_buf (delete_char (move_current (buf st) LEFT)) st
     end).
Proof.
  intros Hmode Hrow He. cbn [handle_backspace].
  rewrite handle_backspace_body_front by exact Hmode.
  rewrite Hrow. cbn. rewrite He. destruct (Echar.prev e); reflexivity.
Qed.

Lemma handle_backspace_insert_front_witness :
  handle_backspace (H := Reference.ops) 1
    (one_row_state INSERT_FRONT "hello" (Some (cell "he" "l" "lo")) 2)
  = Returned
      (set_buf
         (Reference.delete_char
            (Reference.move_current
               (buf (one_row_state INSERT_FRONT "hello" (Some (cell "he" "l" "lo")) 2))
               LEFT))
         (one_row_state INSERT_FRONT "hello" (Some (cell "he" "l" "lo")) 2)) /\
  handle_backspace (H := Reference.ops) 1
    (one_row_state INSERT_FRONT "hello" (Some (cell "" "h" "ello")) 0)
  = Returned
      (set_to_refresh true
         (set_buf
            (Reference.join_row
               (buf (one_row_state INSERT_FRONT "hello" (Some (cell "" "h" "ello")) 0)))
            (one_row_state INSERT_FRONT "hello" (Some (cell "" "h" "ello")) 0))).
Proof.
  split.
  - exact (handle_backspace_insert_front (H := Reference.ops)
             (one_row_state INSERT_FRONT "hello" (Some (cell "he" "l" "lo")) 2) 0
             _ (cell "he" "l" "lo") eq_refl eq_refl eq_refl).
  - exact (handle_backspace_insert_front (H := Reference.ops)
             (one_row_state INSERT_FRONT "hello" (Some (cell "" "h" "ello")) 0) 0
             _ (cell "" "h" "ello") eq_refl eq_refl eq_refl).
Defined.

(** C8 fails on the code: in [INSERT_BACK] mode on the row "hello" with the
    cursor cell on the fourth character, the character "o" follows the
    deletion point, yet the handler deletes and makes no left move: the
    offset stays 3 on "helo", where the left move gives 2.  The test
    [r->current->next] is made after [delete_char], on the cell that followed
    the deleted one. *)
Theorem handle_backspace_insert_back_misses_left_move :
  (Echar.next <$>
     (deref (Buffer.heap (buf hello_on_fourth)) (Buffer.current (buf hello_on_fourth))
        ≫= Row.current)) = Some ["o"%char] /\
  (forall depth,
     handle_backspace (H := Reference.ops) (S depth) hello_on_fourth
     = Returned (set_buf (Reference.delete_char (buf hello_on_fourth)) hello_on_fourth)) /\
  (row_text <$>
     deref (Buffer.heap (Reference.delete_char (buf hello_on_fourth)))
       (Buffer.current (buf hello_on_fourth)))
  = Some (list_ascii_of_string "helo") /\
  Buffer.current_char (Reference.delete_char (buf hello_on_fourth)) = 3 /\
  Buffer.current_char
    (Reference.move_current (Reference.delete_char (buf hello_on_fourth)) LEFT) = 2.
Proof.
  split; [reflexivity|]. split; [|repeat split; vm_compute; reflexivity].
  intros depth. cbn [handle_backspace].
  rewrite handle_backspace_body_back by reflexivity.
  reflexivity.
Qed.

(** C9: [handle_backspace] ends on every state, and its call of itself is
    never nested: two levels of calls are all it ever uses.  The second
    level is entered exactly in [INSERT_BACK] mode at offset 0 of a row that
    has a current cell and a size other than 1. *)
Theorem handle_backspace_recurses_at_most_once `{BufferOps} (st : state_t) :
  (forall depth, handle_backspace (S (S depth)) st = handle_backspace 2 st) /\
  handle_backspace 2 st <> TooDeep /\
  (handle_backspace 1 st = TooDeep <->
   mode st = INSERT_BACK /\
   Buffer.current_char (buf st) = 0 /\
   exists row e,
     deref (Buffer.heap (buf st)) (Buffer.current (buf st)) = Some row /\
     Row.current row = Some e /\ Row.line_size row <> 1).
Proof.
  split; [|split].
  - intros depth. apply handle_backspace_depth.
  - apply (handle_backspace_depth st 0).
  - cbn [handle_backspace]. destruct (mode st) eqn:Hmode.
    + rewrite handle_backspace_body_normal by exact Hmode.
      split; [discriminate | intros [? _]; discriminate].
    + rewrite handle_backspace_body_front by exact Hmode.
      split; [|intros [? _]; discriminate].
      destruct (deref _ _ ≫= Row.current) as [e|]; [|discriminate].
      destruct (Echar.prev e); discriminate.
    + rewrite handle_backspace_body_back by exact Hmode.
      destruct (deref (Buffer.heap (buf st)) (Buffer.current (buf st)))
        as [row|] eqn:Hrow.
      2: { split; [discriminate|]. intros (_ & _ & ? & ? & ? & _). discriminate. }
      destruct (Row.current row) as [e|] eqn:He.
      2: { split; [discriminate|].
           intros (_ & _ & ? & ? & [= <-] & ? & _). congruence. }
      destruct (Z.eqb_spec (Buffer.current_char (buf st)) 0) as [Hz|Hnz].
      * destruct (Z.eqb_spec (Row.line_size row) 1) as [H1|Hn1].
        -- split; [discriminate|].
           intros (_ & _ & ? & ? & [= <-] & _ & ?). contradiction.
        -- split; [|reflexivity]. intros _. eauto 10.
      * split; [|intros (_ & ? & _); contradiction].
        destruct (deref _ _ ≫= Row.current) as [e'|]; [|discriminate].
        destruct (Echar.next e'); discriminate.
    + rewrite handle_backspace_body_ex by exact Hmode.
      split; [discriminate | intros [? _]; discriminate].
Qed.

(** ** Display-row mapper: [update_scr_windows] *)

Lemma same_rows_refl h : same_rows h h.
Proof. intros l. reflexivity. Qed.

Lemma same_rows_trans h1 h2 h3 :
  same_rows h1 h2 -> same_rows h2 h3 -> same_rows h1 h3.
Proof. intros H12 H23 l. rewrite H23. apply H12. Qed.

Lemma same_rows_dirty (h : gmap loc row_t) l row :
  h !! l = Some row -> same_rows h (<[l := Row.set_is_dirty true row]> h).
Proof.
  intros Hrow l'. destruct (decide (l = l')) as [<-|Hne].
  - rewrite lookup_insert_eq, Hrow. reflexivity.
  - rewrite lookup_insert_ne by exact Hne. reflexivity.
Qed.

Lemma same_rows_lookup h h' l row :
  same_rows h h' -> h !! l = Some row ->
  exists row', h' !! l = Some row' /\
    Row.current row' = Row.current row /\ Row.line_size row' = Row.line_size row /\
    Row.prev row' = Row.prev row /\ Row.next row' = Row.next row.
Proof.
  intros Hsame Hrow. specialize (Hsame l). rewrite Hrow in Hsame.
  destruct (h' !! l) as [row'|]; [|discriminate].
  exists row'. split; [reflexivity|].
  cbn in Hsame. unfold Row.set_is_dirty in Hsame.
  injection Hsame as Hc Hs Hp Hn. auto.
Qed.


Lemma linked_same_rows h h' ls : same_rows h h' -> linked h ls -> linked h' ls.
Proof.
  intros Hsame Hl j l Hj. destruct (Hl j l Hj) as (row & Hrow & Hprev & Hnext).
  destruct (same_rows_lookup _ _ _ _ Hsame Hrow) as (row' & Hrow' & _ & _ & Hp & Hn).
  exists row'. rewrite Hp, Hn. auto.
Qed.

Lemma set_window_Some (ws : list window_t) (i : Z) (w : window_t) :
  0 <= i < Z.of_nat (length ws) ->
  set_window ws i w = Some (<[Z.to_nat i := w]> ws).
Proof.
  intros Hi. unfold set_window.
  destruct (lookup_lt_is_Some_2 ws (Z.to_nat i) ltac:(lia)) as [w' ->].
  reflexivity.
Qed.

Lemma set_window_length ws i w ws' :
  set_window ws i w = Some ws' -> length ws' = length ws.
Proof.
  unfold set_window. destruct (ws !! Z.to_nat i); [|discriminate].
  intros [= <-]. apply length_insert.
Qed.

(** The loops only ever set [is_dirty], and keep the number of windows. *)
Lemma link_backward_frame fuel t c i r ws h ws' h' :
  link_backward fuel t c i r ws h = Some (ws', h') ->
  same_rows h h' /\ length ws' = length ws.
Proof.
  revert i r ws h. induction fuel as [|fuel IH]; intros i r ws h; cbn.
  - destruct (i <=? c); [discriminate|]. intros [= <- <-].
    split; [apply same_rows_refl | reflexivity].
  - destruct (i <=? c); [|intros [= <- <-]; split; [apply same_rows_refl | reflexivity]].
    destruct r as [l|]; [|discriminate]. cbn.
    destruct (h !! l) as [row|] eqn:Hrow; [|discriminate]. cbn.
    destruct (set_window ws _ _) as [ws1|] eqn:Hset; [|discriminate]. cbn.
    intros Hrun. destruct (IH _ _ _ _ Hrun) as [Hsame Hlen]. split.
    + eapply same_rows_trans; [apply same_rows_dirty; exact Hrow | exact Hsame].
    + rewrite Hlen. eapply set_window_length; exact Hset.
Qed.

Lemma link_forward_frame fuel t bound i r ws h ws' h' :
  link_forward fuel t bound i r ws h = Some (ws', h') ->
  same_rows h h' /\ length ws' = length ws.
Proof.
  revert i r ws h. induction fuel as [|fuel IH]; intros i r ws h; cbn.
  - destruct (i <? bound); [discriminate|]. intros [= <- <-].
    split; [apply same_rows_refl | reflexivity].
  - destruct (i <? bound);
      [|intros [= <- <-]; split; [apply same_rows_refl | reflexivity]].
    destruct r as [l|].
    + destruct (h !! l) as [row|] eqn:Hrow; [|discriminate]. cbn.
      destruct (set_window ws _ _) as [ws1|] eqn:Hset; [|discriminate]. cbn.
      intros Hrun. destruct (IH _ _ _ _ Hrun) as [Hsame Hlen]. split.
      * eapply same_rows_trans; [apply same_rows_dirty; exact Hrow | exact Hsame].
      * rewrite Hlen. eapply set_window_length; exact Hset.
    + destruct (set_window ws _ _) as [ws1|] eqn:Hset; [|discriminate]. cbn.
      intros Hrun. destruct (IH _ _ _ _ Hrun) as [Hsame Hlen]. split.
      * exact Hsame.
      * rewrite Hlen. eapply set_window_length; exact Hset.
Qed.

Section Mapper.
Variable ls : list loc.
Variable t : Z.
Hypothesis top_ok : 0 <= t.

Lemma slot_of_row (j : Z) l :
  0 <= j -> ls !! Z.to_nat j = Some l ->
  slot_of ls (Z.to_nat j) = Window.mk (Some l) (j + 1).
Proof.
  intros Hj Hl. unfold slot_of. rewrite Hl. f_equal. lia.
Qed.

(** The backward loop, [m] iterations before its end: the slots from
    [c - i] down to 0 get the rows from [t + c - i] down to [t]. *)
Lemma link_backward_spec (c : Z) (m : nat) :
  t <= c -> (Z.to_nat c < length ls)%nat -> c + 1 <= SIZE_MAX ->
  forall i r ws h,
    t <= i -> i + Z.of_nat m = c + 1 ->
    (m <> O -> r = ls !! Z.to_nat (c + t - i)) ->
    linked h ls ->
    c - t < Z.of_nat (length ws) ->
    exists ws' h',
      link_backward m t c i r ws h = Some (ws', h') /\
      (forall k : nat, Z.of_nat k <= c - i ->
         ws' !! k = Some (slot_of ls (Z.to_nat t + k))) /\
      (forall k : nat, c - i < Z.of_nat k -> ws' !! k = ws !! k).
Proof.
  intros top_le row_in row_fits.
  induction m as [|m IH]; intros i r ws h Hi Hm Hr Hl Hws; cbn.
  - destruct (Z.leb_spec i c); [lia|].
    exists ws, h. split; [reflexivity|]. split; [intros; lia | reflexivity].
  - destruct (Z.leb_spec i c); [|lia].
    rewrite (Hr ltac:(discriminate)).
    destruct (lookup_lt_is_Some_2 ls (Z.to_nat (c + t - i)) ltac:(lia)) as [l Hlk].
    rewrite Hlk. cbn.
    destruct (Hl _ _ Hlk) as (row & Hrow & Hprev & _). rewrite Hrow. cbn.
    rewrite wrap_line_number by (unfold is_size_t; lia).
    rewrite (wrap_small (c - i)) by (unfold is_size_t; lia).
    rewrite (wrap_small (i + 1)) by (unfold is_size_t; lia).
    rewrite set_window_Some by lia. cbn.
    destruct (IH (i + 1) (Row.prev row)
                (<[Z.to_nat (c - i) := Window.mk (Some l) (t + c - i + 1)]> ws)
                (<[l := Row.set_is_dirty true row]> h))
      as (ws' & h' & Hrun & Hlow & Hhigh).
    + lia.
    + lia.
    + intros Hm'. rewrite Hprev.
      replace (Z.to_nat (c + t - i)) with (S (Z.to_nat (c + t - (i + 1)))) by lia.
      reflexivity.
    + eapply linked_same_rows; [apply same_rows_dirty; exact Hrow | exact Hl].
    + rewrite length_insert. exact Hws.
    + exists ws', h'. split; [exact Hrun|]. split.
      * intros k Hk. destruct (decide (Z.of_nat k = c - i)) as [Heq|Hne].
        -- rewrite Hhigh by lia.
           replace k with (Z.to_nat (c - i)) by lia.
           rewrite list_lookup_insert_eq by lia. f_equal.
           replace (Z.to_nat t + Z.to_nat (c - i))%nat
             with (Z.to_nat (c + t - i)) by lia.
           rewrite (slot_of_row (c + t - i) l) by (lia || exact Hlk).
           f_equal. lia.
        -- apply Hlow. lia.
      * intros k Hk. rewrite Hhigh by lia.
        apply list_lookup_insert_ne. lia.
Qed.

(** The forward loop, [m] iterations before its end at [bound]: the slots
    from [i - t] up get the rows from [i] on, and the empty marker once the
    rows have run out. *)
Lemma link_forward_spec (bound : Z) (m : nat) :
  bound <= SIZE_MAX ->
  forall i r ws h,
    t <= i -> i + Z.of_nat m = bound ->
    r = ls !! Z.to_nat i ->
    linked h ls ->
    bound - t <= Z.of_nat (length ws) ->
    exists ws' h',
      link_forward m t bound i r ws h = Some (ws', h') /\
      (forall k : nat, i - t <= Z.of_nat k < bound - t ->
         ws' !! k = Some (slot_of ls (Z.to_nat t + k))) /\
      (forall k : nat, Z.of_nat k < i - t -> ws' !! k = ws !! k).
Proof.
  intros Hbound.
  induction m as [|m IH]; intros i r ws h Hi Hm Hr Hl Hws; cbn.
  - destruct (Z.ltb_spec i bound); [lia|].
    exists ws, h. split; [reflexivity|]. split; [intros; lia | reflexivity].
  - destruct (Z.ltb_spec i bound); [|lia].
    rewrite (wrap_small (i - t)) by (unfold is_size_t; lia).
    rewrite (wrap_small (i + 1)) by (unfold is_size_t; lia).
    assert (forall (w : window_t) (ws' : list window_t),
              (forall k : nat, i + 1 - t <= Z.of_nat k < bound - t ->
                 ws' !! k = Some (slot_of ls (Z.to_nat t + k))) ->
              (forall k : nat, Z.of_nat k < i + 1 - t ->
                 ws' !! k = (<[Z.to_nat (i - t) := w]> ws) !! k) ->
              w = slot_of ls (Z.to_nat i) ->
              (forall k : nat, i - t <= Z.of_nat k < bound - t ->
                 ws' !! k = Some (slot_of ls (Z.to_nat t + k))) /\
              (forall k : nat, Z.of_nat k < i - t -> ws' !! k = ws !! k))
      as Hstep.
    { intros w ws' Hlow Hhigh Hw. split.
      - intros k Hk. destruct (decide (Z.of_nat k = i - t)) as [Heq|Hne].
        + rewrite Hhigh by lia.
          replace k with (Z.to_nat (i - t)) by lia.
          rewrite list_lookup_insert_eq by lia. f_equal.
          rewrite Hw. f_equal. lia.
        + apply Hlow. lia.
      - intros k Hk. rewrite Hhigh by lia.
        apply list_lookup_insert_ne. lia. }
    subst r. destruct (ls !! Z.to_nat i) as [l|] eqn:Hlk.
    + destruct (Hl _ _ Hlk) as (row & Hrow & _ & Hnext). rewrite Hrow. cbn.
      rewrite set_window_Some by lia. cbn.
      destruct (IH (i + 1) (Row.next row)
                  (<[Z.to_nat (i - t) := Window.mk (Some l) (i + 1)]> ws)
                  (<[l := Row.set_is_dirty true row]> h))
        as (ws' & h' & Hrun & Hlow & Hhigh).
      * lia.
      * lia.
      * rewrite Hnext. f_equal. lia.
      * eapply linked_same_rows; [apply same_rows_dirty; exact Hrow | exact Hl].
      * rewrite length_insert. exact Hws.
      * exists ws', h'. split; [exact Hrun|].
        apply (Hstep _ ws' Hlow Hhigh).
        symmetry. apply slot_of_row; [lia | exact Hlk].
    + rewrite set_window_Some by lia. cbn.
      destruct (IH (i + 1) None (<[Z.to_nat (i - t) := Window.mk None 0]> ws) h)
        as (ws' & h' & Hrun & Hlow & Hhigh).
      * lia.
      * lia.
      * symmetry. apply lookup_ge_None. apply lookup_ge_None in Hlk. lia.
      * exact Hl.
      * rewrite length_insert. exact Hws.
      * exists ws', h'. split; [exact Hrun|].
        apply (Hstep _ ws' Hlow Hhigh).
        unfold slot_of. rewrite Hlk. reflexivity.
Qed.

End Mapper.

Lemma ten_rows_linked : linked ten_rows ten_rows_addresses.
Proof.
  intros j l Hj.
  do 10 (destruct j as [|j];
         [injection Hj as <-; eexists; split; [reflexivity|]; split; reflexivity|]).
  discriminate.
Qed.

(** C5: on a document whose rows [ls] are linked first to last, with the
    current row inside the viewport, [update_scr_windows] returns and every
    display slot [k] then holds document row [top_row + k] with line number
    [top_row + k + 1], or the empty marker (no row, line number 0) when the
    document has no such row. *)
Theorem update_scr_windows_maps_rows (st : state_t) (ls : list loc) :
  linked (Buffer.heap (buf st)) ls ->
  (Z.to_nat (Buffer.current_row (buf st)) < length ls)%nat ->
  Buffer.current (buf st) = ls !! Z.to_nat (Buffer.current_row (buf st)) ->
  0 <= top_row st <= Buffer.current_row (buf st) ->
  Buffer.current_row (buf st) < top_row st + Screen.num_windows (scr st) ->
  top_row st + Screen.num_windows (scr st) <= SIZE_MAX ->
  length (Screen.windows (scr st)) = Z.to_nat (Screen.num_windows (scr st)) ->
  exists st',
    update_scr_windows st = Some st' /\
    forall k : nat,
      Z.of_nat k < Screen.num_windows (scr st) ->
      Screen.windows (scr st') !! k
      = Some (slot_of ls (Z.to_nat (top_row st) + k)).
Proof.
  intros Hl Hin Hcur Htop Hview Hfit Hws. unfold update_scr_windows.
  set (t := top_row st) in *. set (c := Buffer.current_row (buf st)) in *.
  set (n := Screen.num_windows (scr st)) in *.
  assert (c + 1 <= SIZE_MAX) as Hrow by lia.
  destruct (link_backward_spec ls t (proj1 Htop) c (Z.to_nat (c - t + 1))
              (proj2 Htop) Hin Hrow t (Buffer.current (buf st))
              (Screen.windows (scr st)) (Buffer.heap (buf st)))
    as (ws1 & h1 & Hrun1 & Hlow1 & _).
  { lia. }
  { lia. }
  { intros _. rewrite Hcur. f_equal. lia. }
  { exact Hl. }
  { lia. }
  rewrite Hrun1. cbn.
  destruct (link_backward_frame _ _ _ _ _ _ _ _ _ Hrun1) as [Hsame1 Hlen1].
  pose proof (linked_same_rows _ _ _ Hsame1 Hl) as Hl1.
  destruct (lookup_lt_is_Some_2 ls (Z.to_nat c) Hin) as [l Hlk].
  rewrite Hcur, Hlk. cbn.
  destruct (Hl1 _ _ Hlk) as (cur & Hcell & _ & Hnext). rewrite Hcell. cbn.
  rewrite (wrap_small (t + n)) by (unfold is_size_t; lia).
  rewrite (wrap_small (c + 1)) by (unfold is_size_t; lia).
  destruct (link_forward_spec ls t (proj1 Htop) (t + n)
              (Z.to_nat (t + n - (c + 1))) Hfit (c + 1) (Row.next cur) ws1 h1)
    as (ws2 & h2 & Hrun2 & Hlow2 & Hhigh2).
  { lia. }
  { lia. }
  { rewrite Hnext. f_equal. lia. }
  { exact Hl1. }
  { lia. }
  rewrite Hrun2. cbn. eexists. split; [reflexivity|]. cbn.
  intros k Hk. destruct (Z_le_gt_dec (Z.of_nat k) (c - t)).
  - rewrite Hhigh2 by lia. apply Hlow1. lia.
  - apply Hlow2. lia.
Qed.

Lemma update_scr_windows_maps_rows_witness :
  exists st',
    update_scr_windows (ten_rows_state NORMAL 3 true) = Some st' /\
    forall k : nat,
      Z.of_nat k < 4 ->
      Screen.windows (scr st') !! k
      = Some (slot_of ten_rows_addresses (3 + k)).
Proof.
  apply (update_scr_windows_maps_rows (ten_rows_state NORMAL 3 true)
           ten_rows_addresses ten_rows_linked).
  - simpl. lia.
  - reflexivity.
  - simpl. lia.
  - simpl. lia.
  - unfold SIZE_MAX. simpl. lia.
  - reflexivity.
Defined.

(** The example of C5: rows [L0 .. L9] with [top_row = 3], four windows and
    the cursor on row 5 give the slots 0 to 3 the rows [L3] to [L6], which
    live at the addresses 4 to 7. *)
Example update_scr_windows_ten_rows :
  Screen.windows <$> (scr <$> update_scr_windows (ten_rows_state NORMAL 3 true))
  = Some [Window.mk (Some 4%positive) 4; Window.mk (Some 5%positive) 5;
          Window.mk (Some 6%positive) 6; Window.mk (Some 7%positive) 7].
Proof. vm_compute. reflexivity. Qed.

(** ** Recomputing the state twice *)

(** The reference status line keeps the contract. *)
Lemma reference_status_line : StatusLine (H := Reference.ops).
Proof.
  split; cbn; unfold Reference.clear_row, Reference.add_char, Reference.on_row.
  - intros h l p Hne. apply lookup_alter_ne. congruence.
  - intros h l p ch Hne. apply lookup_alter_ne. congruence.
  - intros h l row Hrow. rewrite lookup_alter_eq, Hrow. cbn.
    eexists. split; reflexivity.
  - intros h l ch row Hrow. rewrite lookup_alter_eq, Hrow. cbn.
    eexists. split; [reflexivity|].
    unfold row_text. cbn. destruct (Row.current row) as [e|]; cbn; [|reflexivity].
    rewrite <- app_assoc. reflexivity.
Qed.

Section Status.
Context `{StatusLine}.

Lemma add_chars_other (chars : list ascii) (h : gmap loc row_t) (l p : loc) :
  p <> l ->
  fold_left (fun h ch => add_char (Some l) ch h) chars h !! p = h !! p.
Proof.
  intros Hne. revert h. induction chars as [|ch chars IH]; intros h; cbn.
  - reflexivity.
  - rewrite IH. apply add_char_other, Hne.
Qed.

Lemma add_chars_text (chars : list ascii) (h : gmap loc row_t) (l : loc) row :
  h !! l = Some row ->
  exists row',
    fold_left (fun h ch => add_char (Some l) ch h) chars h !! l = Some row' /\
    row_text row' = row_text row ++ chars.
Proof.
  revert h row. induction chars as [|ch chars IH]; intros h row Hrow; cbn.
  - exists row. rewrite app_nil_r. auto.
  - destruct (add_char_text h l ch row Hrow) as (row1 & Hrow1 & Htext1).
    destruct (IH _ _ Hrow1) as (row' & Hrow' & Htext').
    exists row'. split; [exact Hrow'|].
    rewrite Htext', Htext1, <- app_assoc. reflexivity.
Qed.

Lemma write_text_other (text : string) (h : gmap loc row_t) (l p : loc) :
  p <> l -> write_text (Some l) text h !! p = h !! p.
Proof.
  intros Hne. unfold write_text.
  rewrite add_chars_other by exact Hne. apply clear_row_other, Hne.
Qed.

Lemma write_text_text (text : string) (h : gmap loc row_t) (l : loc) row :
  h !! l = Some row ->
  exists row',
    write_text (Some l) text h !! l = Some row' /\
    row_text row' = list_ascii_of_string text.
Proof.
  intros Hrow. unfold write_text.
  destruct (clear_row_text h l row Hrow) as (row0 & Hrow0 & Htext0).
  destruct (add_chars_text (list_ascii_of_string text) _ l row0 Hrow0)
    as (row' & Hrow' & Htext').
  exists row'. split; [exact Hrow'|]. rewrite Htext', Htext0. reflexivity.
Qed.

End Status.

(** [update_mode_status] rewrites the row store and nothing else. *)
Lemma update_mode_status_eq `{BufferOps} (st : state_t) :
  update_mode_status st =
  match banner (mode st) with
  | Some text =>
    set_buf (Buffer.set_heap
               (write_text (Buffer.status_row (buf st)) text (Buffer.heap (buf st)))
               (buf st)) st
  | None => st
  end.
Proof.
  unfold update_mode_status. destruct (mode st) eqn:Hmode; reflexivity.
Qed.

(** [update_scr_windows] relinks the windows and stamps rows dirty; the rest
    of the state is as before. *)
Lemma update_scr_windows_frame (st st' : state_t) :
  update_scr_windows st = Some st' ->
  mode st' = mode st /\ top_row st' = top_row st /\
  padding_front st' = padding_front st /\ to_refresh st' = to_refresh st /\
  buf st' = Buffer.set_heap (Buffer.heap (buf st')) (buf st) /\
  same_rows (Buffer.heap (buf st)) (Buffer.heap (buf st')) /\
  Screen.num_windows (scr st') = Screen.num_windows (scr st).
Proof.
  unfold update_scr_windows.
  destruct (link_backward _ _ _ _ _ _ _) as [[ws1 h1]|] eqn:Hrun1; [|discriminate].
  cbn. destruct (deref h1 _) as [cur|]; [|discriminate]. cbn.
  destruct (link_forward _ _ _ _ _ _ _) as [[ws2 h2]|] eqn:Hrun2; [|discriminate].
  cbn. intros [= <-]. cbn.
  destruct (link_backward_frame _ _ _ _ _ _ _ _ _ Hrun1) as [Hsame1 _].
  destruct (link_forward_frame _ _ _ _ _ _ _ _ _ Hrun2) as [Hsame2 _].
  repeat split; try reflexivity.
  eapply same_rows_trans; eassumption.
Qed.

(** [update_cursor_position] with its assignments to [cx] and [cy] merged. *)
Lemma update_cursor_position_eq (st : state_t) :
  update_cursor_position st =
  row ← deref (Buffer.heap (buf st)) (Buffer.current (buf st));
  let base :=
    if Row.line_size row =? 0 then 0
    else if 0 >=? Row.line_size row then wrap (Row.line_size row - 1)
    else Buffer.current_char (buf st) in
  let column :=
    if bool_decide (mode st = INSERT_BACK) && negb (Row.line_size row =? 0)
    then wrap (base + 1) else base in
  if bool_decide (mode st = EX)
  then
    status ← deref (Buffer.heap (buf st)) (Buffer.status_row (buf st));
    Some (set_cx (Row.line_size status) (set_cy (Screen.num_windows (scr st)) st))
  else
    Some (set_cx (wrap (wrap (column + padding_front st) + 1))
            (set_cy (wrap (Buffer.current_row (buf st) - top_row st)) st)).
Proof.
  unfold update_cursor_position.
  destruct (deref _ (Buffer.current _)) as [row|]; [|reflexivity]. cbn.
  destruct (Row.line_size row =? 0); cbn;
    [|destruct (0 >=? Row.line_size row); cbn];
    destruct (bool_decide (mode st = INSERT_BACK)); cbn;
    destruct (bool_decide (mode st = EX)); cbn;
    try reflexivity;
    destruct (deref _ (Buffer.status_row _)); reflexivity.
Qed.

(** [update_cursor_position] writes [cx] and [cy] only. *)
Lemma update_cursor_position_frame (st st' : state_t) :
  update_cursor_position st = Some st' ->
  st' = set_cx (cx st') (set_cy (cy st') st).
Proof.
  rewrite update_cursor_position_eq.
  destruct (deref _ (Buffer.current _)) as [row|]; [|discriminate]. cbn.
  destruct (bool_decide (mode _ = EX)).
  - cbn. destruct (deref _ _) as [status|]; [|discriminate]. cbn.
    intros [= <-]. reflexivity.
  - intros [= <-]. reflexivity.
Qed.

(** The coordinates depend on the mode, the scroll data, the gutter width,
    the cursor's offset and the sizes of the current and status rows. *)
Lemma update_cursor_position_agree (s s' s1 : state_t) :
  mode s' = mode s ->
  top_row s' = top_row s ->
  padding_front s' = padding_front s ->
  Buffer.current_row (buf s') = Buffer.current_row (buf s) ->
  Buffer.current_char (buf s') = Buffer.current_char (buf s) ->
  Screen.num_windows (scr s') = Screen.num_windows (scr s) ->
  Row.line_size <$> deref (Buffer.heap (buf s')) (Buffer.current (buf s'))
  = Row.line_size <$> deref (Buffer.heap (buf s)) (Buffer.current (buf s)) ->
  (mode s = EX ->
   Row.line_size <$> deref (Buffer.heap (buf s')) (Buffer.status_row (buf s'))
   = Row.line_size <$> deref (Buffer.heap (buf s)) (Buffer.status_row (buf s))) ->
  update_cursor_position s = Some s1 ->
  exists s1', update_cursor_position s' = Some s1' /\
              cx s1' = cx s1 /\ cy s1' = cy s1.
Proof.
  intros Hmode Htop Hpad Hrow Hchar Hn Hsize Hstatus.
  rewrite !update_cursor_position_eq.
  destruct (deref (Buffer.heap (buf s)) (Buffer.current (buf s))) as [row|];
    [|discriminate].
  destruct (deref (Buffer.heap (buf s')) (Buffer.current (buf s'))) as [row'|];
    [|discriminate].
  injection Hsize as Hsize. cbn.
  rewrite Hmode, Htop, Hpad, Hrow, Hchar, Hn, Hsize.
  destruct (bool_decide_reflect (mode s = EX)) as [Hex|_].
  - specialize (Hstatus Hex).
    destruct (deref (Buffer.heap (buf s)) (Buffer.status_row (buf s))) as [status|];
      [|discriminate].
    destruct (deref (Buffer.heap (buf s')) (Buffer.status_row (buf s'))) as [status'|];
      [|discriminate].
    injection Hstatus as Hstatus. cbn. rewrite Hstatus.
    intros [= <-]. eexists. split; [reflexivity|]. split; reflexivity.
  - intros [= <-]. eexists. split; [reflexivity|]. split; reflexivity.
Qed.

Lemma update_mode_status_fields `{BufferOps} (st : state_t) :
  mode (update_mode_status st) = mode st /\
  top_row (update_mode_status st) = top_row st /\
  padding_front (update_mode_status st) = padding_front st /\
  to_refresh (update_mode_status st) = to_refresh st /\
  scr (update_mode_status st) = scr st /\
  buf (update_mode_status st)
  = Buffer.set_heap (Buffer.heap (buf (update_mode_status st))) (buf st).
Proof.
  rewrite update_mode_status_eq. destruct (banner (mode st)); cbn.
  - repeat split; reflexivity.
  - repeat split; try reflexivity. destruct (buf st); reflexivity.
Qed.

Lemma update_mode_status_heap `{BufferOps} (st : state_t) (sr : loc) :
  Buffer.status_row (buf st) = Some sr ->
  Buffer.heap (buf (update_mode_status st))
  = status_heap (mode st) sr (Buffer.heap (buf st)).
Proof.
  intros Hsr. rewrite update_mode_status_eq. unfold status_heap.
  destruct (banner (mode st)); cbn; [rewrite Hsr|]; reflexivity.
Qed.

Lemma status_heap_other `{StatusLine} (m : MODE) (sr p : loc) (h : gmap loc row_t) :
  p <> sr -> status_heap m sr h !! p = h !! p.
Proof.
  intros Hne. unfold status_heap.
  destruct (banner m); [apply write_text_other, Hne | reflexivity].
Qed.

Lemma status_heap_text `{StatusLine} (m : MODE) (sr : loc) (h : gmap loc row_t) row :
  h !! sr = Some row ->
  exists row',
    status_heap m sr h !! sr = Some row' /\
    row_text row' = status_text m (row_text row).
Proof.
  intros Hrow. unfold status_heap, status_text.
  destruct (banner m); [exact (write_text_text _ _ _ _ Hrow) | eauto].
Qed.

Lemma status_heap_ex `{BufferOps} (sr : loc) (h : gmap loc row_t) :
  status_heap EX sr h = h.
Proof. reflexivity. Qed.

Lemma status_text_twice (m : MODE) (old : list ascii) :
  status_text m (status_text m old) = status_text m old.
Proof. unfold status_text. destruct (banner m); reflexivity. Qed.

Lemma same_rows_text h h' l row :
  same_rows h h' -> h !! l = Some row ->
  exists row', h' !! l = Some row' /\ row_text row' = row_text row.
Proof.
  intros Hsame Hrow.
  destruct (same_rows_lookup _ _ _ _ Hsame Hrow) as (row' & Hrow' & Hc & _).
  exists row'. split; [exact Hrow'|]. unfold row_text. rewrite Hc. reflexivity.
Qed.

Lemma update_cursor_position_fields (st st' : state_t) :
  update_cursor_position st = Some st' ->
  mode st' = mode st /\ top_row st' = top_row st /\
  padding_front st' = padding_front st /\ to_refresh st' = to_refresh st /\
  buf st' = buf st /\ scr st' = scr st.
Proof.
  intros Hrun. rewrite (update_cursor_position_frame _ _ Hrun).
  repeat split; reflexivity.
Qed.

Section Idempotence.
Context `{StatusLine}.
Variables (st st1 : state_t) (sr : loc) (srow : row_t).
Hypothesis status_at : Buffer.status_row (buf st) = Some sr.
Hypothesis status_row_allocated : Buffer.heap (buf st) !! sr = Some srow.
Hypothesis status_not_current : Buffer.current (buf st) <> Some sr.
Hypothesis top_ok : is_size_t (top_row st).
Hypothesis row_ok : is_size_t (Buffer.current_row (buf st)).
Hypothesis windows_ok : is_size_t (Screen.num_windows (scr st)).
Hypothesis some_window : 1 <= Screen.num_windows (scr st).
Hypothesis rows_fit :
  Buffer.current_row (buf st) + Screen.num_windows (scr st) <= SIZE_MAX.
Hypothesis first_run : update_state st = Some st1.

(** The state the first run hands to its cursor step. *)
Lemma first_run_before_cursor :
  exists sd,
    update_cursor_position sd = Some st1 /\
    mode sd = mode st /\
    to_refresh sd = false /\
    padding_front sd = wrap (count_digits (Buffer.num_rows (buf st)) 0 + 1) /\
    (top_row sd <= Buffer.current_row (buf st)
       < top_row sd + Screen.num_windows (scr st)) /\
    buf sd = Buffer.set_heap (Buffer.heap (buf sd)) (buf st) /\
    same_rows (status_heap (mode st) sr (Buffer.heap (buf st)))
      (Buffer.heap (buf sd)) /\
    Screen.num_windows (scr sd) = Screen.num_windows (scr st).
Proof.
  pose proof first_run as Hrun. rewrite update_state_unfold in Hrun.
  cbn zeta in Hrun.
  destruct (update_mode_status_fields st)
    as (Hm_a & Ht_a & _ & _ & Hscr_a & Hbuf_a).
  pose proof (update_mode_status_heap st sr status_at) as Hheap_a.
  set (sa := update_mode_status st) in *.
  assert (Buffer.current_row (buf sa) = Buffer.current_row (buf st)) as Hrow_a
    by (rewrite Hbuf_a; reflexivity).
  destruct (update_top_row_frame sa) as (Hm_b & Hbuf_b & Hscr_b & _).
  assert (top_row (update_top_row sa) <= Buffer.current_row (buf st)
            < top_row (update_top_row sa) + Screen.num_windows (scr st))
    as Hvisible.
  { rewrite <- Hrow_a, <- Hscr_a. apply update_top_row_visible.
    - rewrite Ht_a. exact top_ok.
    - rewrite Hrow_a. exact row_ok.
    - rewrite Hscr_a. exact windows_ok.
    - rewrite Hscr_a. exact some_window. }
  set (sb := update_top_row sa) in *.
  set (sc := update_padding_front sb) in *.
  assert (mode sc = mode st) as Hm_c by (cbn; congruence).
  assert (buf sc = Buffer.set_heap (Buffer.heap (buf sc)) (buf st)) as Hbuf_c.
  { cbn. rewrite Hbuf_b. exact Hbuf_a. }
  assert (Buffer.heap (buf sc) = status_heap (mode st) sr (Buffer.heap (buf st)))
    as Hheap_c.
  { cbn. rewrite Hbuf_b. exact Hheap_a. }
  assert (padding_front sc = wrap (count_digits (Buffer.num_rows (buf st)) 0 + 1))
    as Hpad_c.
  { cbn. rewrite Hbuf_b, Hbuf_a. reflexivity. }
  assert (Screen.num_windows (scr sc) = Screen.num_windows (scr st)) as Hn_c.
  { cbn. rewrite Hscr_b, Hscr_a. reflexivity. }
  assert (top_row sc = top_row sb) as Ht_c by reflexivity.
  destruct (to_refresh sc) eqn:Hflag; cbn in Hrun.
  - destruct (update_scr_windows sc) as [sd|] eqn:Hmap; [|discriminate].
    cbn in Hrun.
    destruct (update_scr_windows_frame _ _ Hmap)
      as (Hm_d & Ht_d & Hpad_d & _ & Hbuf_d & Hsame & Hn_d).
    exists (set_to_refresh false sd). split; [exact Hrun|]. cbn.
    split; [congruence|]. split; [reflexivity|]. split; [congruence|].
    split; [rewrite Ht_d, Ht_c; exact Hvisible|].
    split; [rewrite Hbuf_d, Hbuf_c; reflexivity|].
    split; [rewrite <- Hheap_c; exact Hsame | congruence].
  - exists sc. split; [exact Hrun|].
    split; [exact Hm_c|]. split; [exact Hflag|]. split; [exact Hpad_c|].
    split; [rewrite Ht_c; exact Hvisible|].
    split; [exact Hbuf_c|].
    split; [rewrite Hheap_c; apply same_rows_refl | exact Hn_c].
Qed.

(** The second run changes nothing the editor shows. *)
Lemma second_run_same_view :
  exists st2, update_state st1 = Some st2 /\ view st2 = view st1.
Proof.
  destruct first_run_before_cursor
    as (sd & Hcur & Hm & Hflag & Hpad & Hvis & Hbuf & Hsame & Hn).
  destruct (update_cursor_position_fields _ _ Hcur)
    as (Hm1 & Ht1 & Hpad1 & Hflag1 & Hbuf1 & Hscr1).
  assert (buf st1 = Buffer.set_heap (Buffer.heap (buf st1)) (buf st)) as Hbuf1'
    by (rewrite Hbuf1; exact Hbuf).
  assert (Buffer.status_row (buf st1) = Some sr) as Hsr1
    by (rewrite Hbuf1'; exact status_at).
  destruct (update_mode_status_fields st1)
    as (Hm_a & Ht_a & Hpad_a & Hflag_a & Hscr_a & Hbuf_a).
  pose proof (update_mode_status_heap st1 sr Hsr1) as Hheap_a.
  rewrite update_state_unfold. cbn zeta.
  set (sa := update_mode_status st1) in *.
  assert (buf sa = Buffer.set_heap (Buffer.heap (buf sa)) (buf st)) as Hbuf_a'
    by (rewrite Hbuf_a, Hbuf1'; reflexivity).
  assert (update_top_row sa = sa) as ->.
  { apply update_top_row_untouched.
    - rewrite Hbuf_a'. exact row_ok.
    - rewrite Hbuf_a', Ht_a, Ht1, Hscr_a, Hscr1, Hn. exact Hvis.
    - rewrite Ht_a, Ht1, Hscr_a, Hscr1, Hn. lia. }
  rewrite update_padding_front_flag.
  rewrite Hflag_a, Hflag1, Hflag. cbn.
  (* the rows the two cursor steps read *)
  destruct (status_heap_text (mode st) sr _ _ status_row_allocated)
    as (row_a & Hrow_a & Htext_a).
  destruct (same_rows_text _ _ _ _ Hsame Hrow_a) as (row_d & Hrow_d & Htext_d).
  rewrite <- Hbuf1 in Hrow_d.
  destruct (status_heap_text (mode st1) sr _ _ Hrow_d) as (row_2 & Hrow_2 & Htext_2).
  rewrite <- Hheap_a in Hrow_2.
  destruct (update_cursor_position_agree sd (update_padding_front sa) st1)
    as (st2 & Hcur2 & Hcx & Hcy).
  - cbn. congruence.
  - cbn. congruence.
  - cbn. rewrite Hbuf_a'. cbn. exact (eq_sym Hpad).
  - cbn. rewrite Hbuf_a', Hbuf. reflexivity.
  - cbn. rewrite Hbuf_a', Hbuf. reflexivity.
  - cbn. congruence.
  - cbn. rewrite Hheap_a, Hbuf_a', Hm1, <- Hbuf1. cbn.
    rewrite Hbuf1'. cbn.
    destruct (Buffer.current (buf st)) as [l|]; [|reflexivity]. cbn.
    rewrite status_heap_other by congruence. reflexivity.
  - intros Hex. cbn. rewrite Hheap_a, Hm1, Hex, status_heap_ex.
    rewrite Hbuf_a', <- Hbuf1. cbn. rewrite Hbuf1'. reflexivity.
  - exact Hcur.
  - exists st2. split; [exact Hcur2|].
    destruct (update_cursor_position_fields _ _ Hcur2)
      as (_ & Ht2 & Hpad2 & _ & Hbuf2 & Hscr2).
    cbn in Ht2, Hpad2, Hbuf2, Hscr2.
    unfold view. rewrite Hcx, Hcy, Ht2, Ht_a, Hscr2, Hscr_a, Hbuf2.
    rewrite Hpad2, Hbuf_a'. cbn. rewrite <- Hpad, <- Hpad1.
    rewrite status_at, Hsr1. cbn.
    rewrite Hrow_2, Hrow_d. cbn.
    rewrite Htext_2, Htext_d, Htext_a, Hm1, Hm, status_text_twice.
    reflexivity.
Qed.

End Idempotence.

(** C6: when the status row is an allocated row other than the current
    one, its writers keep the contract [StatusLine], and the viewport has
    at least one window and fits [size_t], a second run of [update_state]
    right after a first one returns and leaves everything the editor shows
    as the first run left it: cursor coordinates, top row, gutter width,
    display-row mapping and status-line text. *)
Theorem update_state_idempotent `{StatusLine} (st st1 : state_t)
    (sr : loc) (srow : row_t) :
  Buffer.status_row (buf st) = Some sr ->
  Buffer.heap (buf st) !! sr = Some srow ->
  Buffer.current (buf st) <> Some sr ->
  is_size_t (top_row st) ->
  is_size_t (Buffer.current_row (buf st)) ->
  is_size_t (Screen.num_windows (scr st)) ->
  1 <= Screen.num_windows (scr st) ->
  Buffer.current_row (buf st) + Screen.num_windows (scr st) <= SIZE_MAX ->
  update_state st = Some st1 ->
  exists st2, update_state st1 = Some st2 /\ view st2 = view st1.
Proof.
  intros. eapply second_run_same_view; eassumption.
Qed.

Lemma update_state_idempotent_witness :
  exists st2,
    update_state (H := Reference.ops) ten_rows_recomputed = Some st2 /\
    view st2 = view ten_rows_recomputed.
Proof.
  apply (update_state_idempotent (H0 := reference_status_line)
           ten_rows_scrolled ten_rows_recomputed 100%positive (line "" None None)).
  - reflexivity.
  - reflexivity.
  - discriminate.
  - unfold is_size_t, SIZE_MAX. simpl. lia.
  - unfold is_size_t, SIZE_MAX. simpl. lia.
  - unfold is_size_t, SIZE_MAX. simpl. lia.
  - simpl. lia.
  - unfold SIZE_MAX. simpl. lia.
  - vm_compute. reflexivity.
Defined.

(** * Further properties *)

(** ** Scrolling *)

(** X2: [update_top_row] scrolls by the least amount.  When the sum
    [top_row + num_windows] fits [size_t] and there is a window, a current
    row below the viewport ends in the last window, one above it in the
    first window, each time with the relayout flag set; and no top row that
    shows the current row is nearer to the old one than the new top row. *)
Theorem update_top_row_scrolls_least (st : state_t) :
  is_size_t (top_row st) ->
  is_size_t (Buffer.current_row (buf st)) ->
  1 <= Screen.num_windows (scr st) ->
  top_row st + Screen.num_windows (scr st) <= SIZE_MAX ->
  (top_row st + Screen.num_windows (scr st) <= Buffer.current_row (buf st) ->
   top_row (update_top_row st)
   = Buffer.current_row (buf st) - Screen.num_windows (scr st) + 1 /\
   to_refresh (update_top_row st) = true) /\
  (Buffer.current_row (buf st) < top_row st ->
   top_row (update_top_row st) = Buffer.current_row (buf st) /\
   to_refresh (update_top_row st) = true) /\
  (forall t' : Z,
     t' <= Buffer.current_row (buf st) < t' + Screen.num_windows (scr st) ->
     Z.abs (top_row (update_top_row st) - top_row st) <= Z.abs (t' - top_row st)).
Proof.
  unfold is_size_t. intros Ht Hc Hn Hfit. unfold update_top_row.
  rewrite (wrap_small (top_row st + _)) by (unfold is_size_t; lia).
  destruct (Z.geb_spec (Buffer.current_row (buf st))
              (top_row st + Screen.num_windows (scr st))) as [Hdown|Hin];
    cbn [top_row set_top_row set_to_refresh buf to_refresh].
  - rewrite (wrap_small (_ - _)) by (unfold is_size_t; lia).
    rewrite (wrap_small (_ + 1)) by (unfold is_size_t; lia).
    destruct (Z.ltb_spec (Buffer.current_row (buf st))
                (Buffer.current_row (buf st) - Screen.num_windows (scr st) + 1));
      [lia|].
    cbn. repeat split; intros; lia.
  - destruct (Z.ltb_spec (Buffer.current_row (buf st)) (top_row st)); cbn.
    + repeat split; intros; lia.
    + repeat split; intros; lia.
Qed.

Lemma update_top_row_scrolls_least_witness :
  top_row (update_top_row (scroll_state 3 9 4 false)) = 9 - 4 + 1 /\
  to_refresh (update_top_row (scroll_state 3 9 4 false)) = true.
Proof.
  apply (update_top_row_scrolls_least (scroll_state 3 9 4 false));
    unfold is_size_t, SIZE_MAX; simpl; lia.
Defined.

(** X3: scrolling twice is scrolling once, as long as there is a window
    and [current_row + num_windows] fits [size_t]. *)
Theorem update_top_row_idempotent (st : state_t) :
  is_size_t (top_row st) ->
  is_size_t (Buffer.current_row (buf st)) ->
  is_size_t (Screen.num_windows (scr st)) ->
  1 <= Screen.num_windows (scr st) ->
  Buffer.current_row (buf st) + Screen.num_windows (scr st) <= SIZE_MAX ->
  update_top_row (update_top_row st) = update_top_row st.
Proof.
  intros Ht Hc Hn Hpos Hfit.
  pose proof (update_top_row_visible st Ht Hc Hn Hpos) as Hvis.
  destruct (update_top_row_frame st) as (_ & Hbuf & Hscr & _).
  apply update_top_row_untouched.
  - rewrite Hbuf. exact Hc.
  - rewrite Hbuf, Hscr. exact Hvis.
  - rewrite Hscr. lia.
Qed.

Lemma update_top_row_idempotent_witness :
  update_top_row (update_top_row (scroll_state 8 5 4 false))
  = update_top_row (scroll_state 8 5 4 false).
Proof.
  apply (update_top_row_idempotent (scroll_state 8 5 4 false));
    unfold is_size_t, SIZE_MAX; simpl; lia.
Defined.

(** X4: [update_top_row] writes [top_row] and the relayout flag only, never
    clears the flag, and never moves [top_row] without setting it: a state
    it leaves with the flag clear is the state it was given. *)
Theorem update_top_row_only_raises_flag (st : state_t) :
  update_top_row st
  = set_to_refresh (to_refresh (update_top_row st))
      (set_top_row (top_row (update_top_row st)) st) /\
  (to_refresh st = true -> to_refresh (update_top_row st) = true) /\
  (to_refresh (update_top_row st) = false -> update_top_row st = st).
Proof.
  unfold update_top_row.
  destruct (_ >=? _); cbn [top_row set_top_row set_to_refresh buf to_refresh];
    destruct (_ <? _); cbn; destruct st; cbn;
    repeat split; try reflexivity; try discriminate; auto.
Qed.

(** ** Gutter width *)

(** The digit loop on a row count that fits [size_t]. *)
Lemma count_digits_of n :
  is_size_t n ->
  0 <= count_digits n 0 <= 20 /\
  (n = 0 -> count_digits n 0 = 0) /\
  (0 < n -> decimal_digits n (count_digits n 0)).
Proof.
  intros Hn. pose proof Hn as [Hlo Hhi].
  destruct (count_digits_spec n Hlo 0 ltac:(lia) ltac:(lia))
    as (d & Hd & Heq & Hz & Hp).
  rewrite Heq. replace (0 + d) with d by lia.
  split; [|split; [exact Hz | exact Hp]].
  destruct (Z.eq_dec n 0) as [H0|Hne].
  - rewrite (Hz H0). lia.
  - pose proof (decimal_digits_bound n d Hn (Hp ltac:(lia))). lia.
Qed.

(** X5: the gutter is between 1 and 21 columns wide, 1 only for a document
    that reports no rows, and a document with more rows never gets a
    narrower gutter. *)
Theorem padding_front_bounds_and_monotone (st st' : state_t) :
  is_size_t (Buffer.num_rows (buf st)) ->
  is_size_t (Buffer.num_rows (buf st')) ->
  Buffer.num_rows (buf st) <= Buffer.num_rows (buf st') ->
  1 <= padding_front (update_padding_front st) <= 21 /\
  (padding_front (update_padding_front st) = 1 <-> Buffer.num_rows (buf st) = 0) /\
  padding_front (update_padding_front st)
  <= padding_front (update_padding_front st').
Proof.
  intros Hn Hn' Hle. unfold update_padding_front.
  cbn [padding_front set_padding_front].
  destruct (count_digits_of _ Hn) as (Hd & Hz & Hp).
  destruct (count_digits_of _ Hn') as (Hd' & Hz' & Hp').
  rewrite !wrap_small by (unfold is_size_t, SIZE_MAX; lia).
  split; [lia|]. split.
  - split.
    + intros H1. destruct (Z.eq_dec (Buffer.num_rows (buf st)) 0) as [|Hne];
        [assumption|].
      destruct Hn as [Hlo _]. destruct (Hp ltac:(lia)) as [Hge _]. lia.
    + intros H0. rewrite (Hz H0). reflexivity.
  - destruct (Z.eq_dec (Buffer.num_rows (buf st)) 0) as [H0|Hne].
    + rewrite (Hz H0). lia.
    + destruct Hn as [Hlo _].
      destruct (Hp ltac:(lia)) as (_ & Hlow & _).
      destruct (Hp' ltac:(lia)) as (Hd1 & _ & Hhigh).
      assert (count_digits (Buffer.num_rows (buf st)) 0 - 1
              < count_digits (Buffer.num_rows (buf st')) 0); [|lia].
      apply (Z.pow_lt_mono_r_iff 10); lia.
Qed.

Lemma padding_front_bounds_and_monotone_witness :
  1 <= padding_front (update_padding_front (rows_state 9)) <= 21 /\
  (padding_front (update_padding_front (rows_state 9)) = 1
   <-> Buffer.num_rows (buf (rows_state 9)) = 0) /\
  padding_front (update_padding_front (rows_state 9))
  <= padding_front (update_padding_front (rows_state 10)).
Proof.
  apply (padding_front_bounds_and_monotone (rows_state 9) (rows_state 10));
    unfold is_size_t, SIZE_MAX; simpl; lia.
Defined.

(** ** Status text *)

(** X6: under the status-line contract, [update_mode_status] leaves the
    text "-- INSERT --" in the status row in both insert modes and
    "-- NORMAL --" in [NORMAL] mode, whatever the row held before; it reads
    and writes no other row and no other field of the state; and in [EX]
    mode it does nothing at all. *)
Theorem update_mode_status_writes_banner `{StatusLine} (st : state_t)
    (sr : loc) (srow : row_t) :
  Buffer.status_row (buf st) = Some sr ->
  Buffer.heap (buf st) !! sr = Some srow ->
  (row_text <$> Buffer.heap (buf (update_mode_status st)) !! sr
   = Some (match mode st with
           | INSERT_BACK | INSERT_FRONT => list_ascii_of_string "-- INSERT --"
           | NORMAL => list_ascii_of_string "-- NORMAL --"
           | EX => row_text srow
           end)) /\
  (forall p, p <> sr ->
     Buffer.heap (buf (update_mode_status st)) !! p = Buffer.heap (buf st) !! p) /\
  (mode st = EX -> update_mode_status st = st) /\
  update_mode_status st
  = set_buf (Buffer.set_heap (Buffer.heap (buf (update_mode_status st))) (buf st)) st.
Proof.
  intros Hsr Hrow.
  rewrite (update_mode_status_heap st sr Hsr).
  destruct (status_heap_text (mode st) sr _ _ Hrow) as (row' & Hrow' & Htext).
  split; [|split; [|split]].
  - rewrite Hrow'. cbn. rewrite Htext. unfold status_text.
    destruct (mode st); reflexivity.
  - intros p Hp. apply status_heap_other, Hp.
  - intros Hex. rewrite update_mode_status_eq, Hex. reflexivity.
  - rewrite update_mode_status_eq. unfold status_heap.
    destruct (banner (mode st)); cbn.
    + rewrite Hsr. reflexivity.
    + destruct st as [? ? ? ? ? ? [] ? ?]. reflexivity.
Qed.

Lemma update_mode_status_writes_banner_witness :
  row_text <$>
    Buffer.heap (buf (update_mode_status (H := Reference.ops)
                        (ten_rows_state INSERT_BACK 3 false))) !! 100%positive
  = Some (list_ascii_of_string "-- INSERT --").
Proof.
  apply (update_mode_status_writes_banner (H0 := reference_status_line)
           (ten_rows_state INSERT_BACK 3 false) 100%positive (line "" None None)
           eq_refl eq_refl).
Defined.

(** ** Cursor projector *)

(** X7: [update_cursor_position] fails exactly when the current row is a
    null or dangling reference, or, in [EX] mode, when the status row is. *)
Theorem update_cursor_position_faults (st : state_t) :
  update_cursor_position st = None <->
  deref (Buffer.heap (buf st)) (Buffer.current (buf st)) = None \/
  (mode st = EX /\
   deref (Buffer.heap (buf st)) (Buffer.status_row (buf st)) = None).
Proof.
  rewrite update_cursor_position_eq.
  destruct (deref _ (Buffer.current _)) as [row|]; cbn; [|tauto].
  destruct (bool_decide_reflect (mode st = EX)) as [Hex|Hne].
  - destruct (deref _ (Buffer.status_row _)) as [status|]; cbn.
    + split; [discriminate|]. intros [?|[_ ?]]; discriminate.
    + tauto.
  - split; [discriminate|]. intros [?|[? _]]; [discriminate | contradiction].
Qed.

(** X8: in [EX] mode the cursor goes to the row below the last window and
    to the column after the status row's text, wherever the document cursor
    and the viewport are. *)
Theorem update_cursor_position_command_line (st st' : state_t) :
  mode st = EX ->
  update_cursor_position st = Some st' ->
  cy st' = Screen.num_windows (scr st) /\
  exists status,
    deref (Buffer.heap (buf st)) (Buffer.status_row (buf st)) = Some status /\
    cx st' = Row.line_size status.
Proof.
  intros Hex. rewrite update_cursor_position_eq.
  destruct (deref _ (Buffer.current _)) as [row|]; cbn; [|discriminate].
  rewrite bool_decide_eq_true_2 by exact Hex.
  destruct (deref _ (Buffer.status_row _)) as [status|]; cbn; [|discriminate].
  intros [= <-]. split; [reflexivity|]. exists status. split; reflexivity.
Qed.

Lemma update_cursor_position_command_line_witness :
  cy ten_rows_command_line = 4 /\
  exists status,
    deref (Buffer.heap (buf (ten_rows_state EX 3 false))) (Some 100%positive)
    = Some status /\
    cx ten_rows_command_line = Row.line_size status.
Proof.
  apply (update_cursor_position_command_line (ten_rows_state EX 3 false)
           ten_rows_command_line eq_refl).
  vm_compute. reflexivity.
Defined.

(** X9: the coordinates are derived: what [cx] and [cy] held before the
    call has no influence on its result, and a second call right after a
    first one returns the state the first one returned. *)
Theorem update_cursor_position_derived (st : state_t) (x y : Z) :
  update_cursor_position (set_cx x (set_cy y st)) = update_cursor_position st /\
  (forall st', update_cursor_position st = Some st' ->
               update_cursor_position st' = Some st').
Proof.
  assert (forall s a b,
            update_cursor_position (set_cx a (set_cy b s))
            = update_cursor_position s) as Hignore.
  { intros s a b. rewrite !update_cursor_position_eq. cbn.
    destruct (deref _ (Buffer.current _)) as [row|]; cbn; [|reflexivity].
    destruct (bool_decide (mode s = EX)); [|reflexivity].
    destruct (deref _ (Buffer.status_row _)); reflexivity. }
  split; [apply Hignore|].
  intros st' Hrun. rewrite (update_cursor_position_frame _ _ Hrun) at 1.
  rewrite Hignore. exact Hrun.
Qed.

(** ** Display-row mapper *)

(** X10: a call of [update_scr_windows] that returns binds the status
    window to the status row when, and only when, the window is still
    unbound; it keeps the window's line number, the number of windows and
    the length of the window array. *)
Theorem update_scr_windows_binds_status_once (st st' : state_t) :
  update_scr_windows st = Some st' ->
  Window.r (Screen.status_window (scr st'))
  = match Window.r (Screen.status_window (scr st)) with
    | None => Buffer.status_row (buf st)
    | Some l => Some l
    end /\
  Window.line_number (Screen.status_window (scr st'))
  = Window.line_number (Screen.status_window (scr st)) /\
  Screen.num_windows (scr st') = Screen.num_windows (scr st) /\
  length (Screen.windows (scr st')) = length (Screen.windows (scr st)).
Proof.
  unfold update_scr_windows.
  destruct (link_backward _ _ _ _ _ _ _) as [[ws1 h1]|] eqn:Hrun1; [|discriminate].
  cbn. destruct (deref h1 _) as [cur|]; [|discriminate]. cbn.
  destruct (link_forward _ _ _ _ _ _ _) as [[ws2 h2]|] eqn:Hrun2; [|discriminate].
  cbn. intros [= <-]. cbn.
  destruct (link_backward_frame _ _ _ _ _ _ _ _ _ Hrun1) as [_ Hlen1].
  destruct (link_forward_frame _ _ _ _ _ _ _ _ _ Hrun2) as [_ Hlen2].
  split; [|split; [|split]].
  - destruct (Window.r (Screen.status_window (scr st))) eqn:Hr; cbn;
      [exact Hr | reflexivity].
  - destruct (Window.r (Screen.status_window (scr st))); reflexivity.
  - reflexivity.
  - congruence.
Qed.

Lemma update_scr_windows_binds_status_once_witness :
  Window.r (Screen.status_window (scr ten_rows_relinked)) = Some 100%positive /\
  Window.line_number (Screen.status_window (scr ten_rows_relinked)) = 0 /\
  Screen.num_windows (scr ten_rows_relinked) = 4 /\
  length (Screen.windows (scr ten_rows_relinked)) = 4%nat.
Proof.
  apply (update_scr_windows_binds_status_once (ten_rows_state NORMAL 3 true)
           ten_rows_relinked).
  vm_compute. reflexivity.
Defined.

Lemma stamped_nil h : stamped [] h h.
Proof. intros l. reflexivity. Qed.

Lemma stamped_cons (S : list loc) (h h' : gmap loc row_t) l row :
  h !! l = Some row ->
  stamped S (<[l := Row.set_is_dirty true row]> h) h' ->
  stamped (l :: S) h h'.
Proof.
  intros Hrow Hs k. rewrite (Hs k).
  destruct (decide (k = l)) as [->|Hne].
  - rewrite lookup_insert_eq, Hrow.
    rewrite (decide_True (P := l ∈ l :: S)) by apply list_elem_of_here.
    destruct (decide (l ∈ S)); reflexivity.
  - rewrite lookup_insert_ne by congruence.
    destruct (decide (k ∈ S)) as [Hin|Hout].
    + rewrite decide_True by (apply list_elem_of_further, Hin). reflexivity.
    + rewrite decide_False; [reflexivity|].
      intros [?|?]%elem_of_cons; contradiction.
Qed.

Lemma stamped_app (S1 S2 : list loc) (h h1 h2 : gmap loc row_t) :
  stamped S1 h h1 -> stamped S2 h1 h2 -> stamped (S1 ++ S2) h h2.
Proof.
  intros H1 H2 k. rewrite (H2 k), (H1 k).
  destruct (decide (k ∈ S1)) as [Hin1|Hout1];
    destruct (decide (k ∈ S2)) as [Hin2|Hout2].
  - rewrite decide_True by (apply elem_of_app; auto).
    destruct (h !! k); reflexivity.
  - rewrite decide_True by (apply elem_of_app; auto). reflexivity.
  - rewrite decide_True by (apply elem_of_app; auto). reflexivity.
  - rewrite decide_False; [reflexivity|].
    intros [?|?]%elem_of_app; contradiction.
Qed.

Lemma stamped_same_members (S S' : list loc) (h h' : gmap loc row_t) :
  (forall l, l ∈ S <-> l ∈ S') -> stamped S h h' -> stamped S' h h'.
Proof.
  intros Hiff Hs l. rewrite (Hs l).
  destruct (decide (l ∈ S)) as [Hin|Hout].
  - rewrite decide_True by (apply Hiff, Hin). reflexivity.
  - rewrite decide_False; [reflexivity|]. intros Hin. apply Hout, Hiff, Hin.
Qed.

Section Stamps.
Variable ls : list loc.
Variable t : Z.
Hypothesis top_ok : 0 <= t.

(** The rows the backward loop marks dirty: those from [t + c - i] down to
    [t]. *)
Lemma link_backward_stamps (c : Z) (m : nat) :
  t <= c -> (Z.to_nat c < length ls)%nat -> c + 1 <= SIZE_MAX ->
  forall i r ws h ws' h',
    t <= i -> i + Z.of_nat m = c + 1 ->
    (m <> O -> r = ls !! Z.to_nat (c + t - i)) ->
    linked h ls ->
    link_backward m t c i r ws h = Some (ws', h') ->
    exists S,
      stamped S h h' /\
      forall l, l ∈ S <->
                exists j : nat, t <= Z.of_nat j <= c + t - i /\ ls !! j = Some l.
Proof.
  intros top_le row_in row_fits.
  induction m as [|m IH]; intros i r ws h ws' h' Hi Hm Hr Hl; cbn.
  - destruct (Z.leb_spec i c); [lia|]. intros [= <- <-].
    exists []. split; [apply stamped_nil|].
    intros l. rewrite elem_of_nil. split; [tauto|]. intros (j & ? & _). lia.
  - destruct (Z.leb_spec i c); [|lia].
    rewrite (Hr ltac:(discriminate)).
    destruct (lookup_lt_is_Some_2 ls (Z.to_nat (c + t - i)) ltac:(lia)) as [l Hlk].
    rewrite Hlk. cbn.
    destruct (Hl _ _ Hlk) as (row & Hrow & Hprev & _). rewrite Hrow. cbn.
    destruct (set_window ws _ _) as [ws1|]; [|discriminate]. cbn.
    rewrite (wrap_small (i + 1)) by (unfold is_size_t; lia).
    intros Hrun.
    destruct (IH (i + 1) (Row.prev row) ws1 (<[l := Row.set_is_dirty true row]> h)
                ws' h') as (S & Hs & Hmem).
    + lia.
    + lia.
    + intros Hm'. rewrite Hprev.
      replace (Z.to_nat (c + t - i)) with (S (Z.to_nat (c + t - (i + 1)))) by lia.
      reflexivity.
    + eapply linked_same_rows; [apply same_rows_dirty; exact Hrow | exact Hl].
    + exact Hrun.
    + exists (l :: S). split; [eapply stamped_cons; eassumption|].
      intros k. rewrite elem_of_cons, Hmem. split.
      * intros [->|(j & Hj & Hk)].
        -- exists (Z.to_nat (c + t - i)). split; [lia | exact Hlk].
        -- exists j. split; [lia | exact Hk].
      * intros (j & Hj & Hk).
        destruct (decide (Z.of_nat j = c + t - i)) as [Heq|Hne].
        -- left. replace j with (Z.to_nat (c + t - i)) in Hk by lia. congruence.
        -- right. exists j. split; [lia | exact Hk].
Qed.

(** The rows the forward loop marks dirty: those from [i] to [bound - 1]
    that the document has. *)
Lemma link_forward_stamps (bound : Z) (m : nat) :
  bound <= SIZE_MAX ->
  forall i r ws h ws' h',
    t <= i -> i + Z.of_nat m = bound ->
    r = ls !! Z.to_nat i ->
    linked h ls ->
    link_forward m t bound i r ws h = Some (ws', h') ->
    exists S,
      stamped S h h' /\
      forall l, l ∈ S <->
                exists j : nat, i <= Z.of_nat j < bound /\ ls !! j = Some l.
Proof.
  intros Hbound.
  induction m as [|m IH]; intros i r ws h ws' h' Hi Hm Hr Hl; cbn.
  - destruct (Z.ltb_spec i bound); [lia|]. intros [= <- <-].
    exists []. split; [apply stamped_nil|].
    intros l. rewrite elem_of_nil. split; [tauto|]. intros (j & ? & _). lia.
  - destruct (Z.ltb_spec i bound); [|lia].
    rewrite (wrap_small (i + 1)) by (unfold is_size_t; lia).
    subst r. destruct (ls !! Z.to_nat i) as [l|] eqn:Hlk.
    + destruct (Hl _ _ Hlk) as (row & Hrow & _ & Hnext). rewrite Hrow. cbn.
      destruct (set_window ws _ _) as [ws1|]; [|discriminate]. cbn.
      intros Hrun.
      destruct (IH (i + 1) (Row.next row) ws1
                  (<[l := Row.set_is_dirty true row]> h) ws' h')
        as (S & Hs & Hmem).
      * lia.
      * lia.
      * rewrite Hnext. f_equal. lia.
      * eapply linked_same_rows; [apply same_rows_dirty; exact Hrow | exact Hl].
      * exact Hrun.
      * exists (l :: S). split; [eapply stamped_cons; eassumption|].
        intros k. rewrite elem_of_cons, Hmem. split.
        -- intros [->|(j & Hj & Hk)].
           ++ exists (Z.to_nat i). split; [lia | exact Hlk].
           ++ exists j. split; [lia | exact Hk].
        -- intros (j & Hj & Hk).
           destruct (decide (Z.of_nat j = i)) as [Heq|Hne].
           ++ left. replace j with (Z.to_nat i) in Hk by lia. congruence.
           ++ right. exists j. split; [lia | exact Hk].
    + destruct (set_window ws _ _) as [ws1|]; [|discriminate]. cbn.
      intros Hrun.
      destruct (IH (i + 1) None ws1 h ws' h') as (S & Hs & Hmem).
      * lia.
      * lia.
      * symmetry. apply lookup_ge_None. apply lookup_ge_None in Hlk. lia.
      * exact Hl.
      * exact Hrun.
      * exists S. split; [exact Hs|].
        intros k. rewrite Hmem. split.
        -- intros (j & Hj & Hk). exists j. split; [lia | exact Hk].
        -- intros (j & Hj & Hk).
           destruct (decide (Z.of_nat j = i)) as [Heq|Hne].
           ++ replace j with (Z.to_nat i) in Hk by lia. congruence.
           ++ exists j. split; [lia | exact Hk].
Qed.

End Stamps.

Lemma elem_of_displayed (ls : list loc) (top n : Z) (l : loc) :
  0 <= top ->
  l ∈ displayed ls top n <->
  exists j : nat, top <= Z.of_nat j < top + n /\ ls !! j = Some l.
Proof.
  intros Htop. unfold displayed. rewrite elem_of_take. split.
  - intros (k & Hk & Hlt). rewrite lookup_drop in Hk.
    exists (Z.to_nat top + k)%nat. split; [lia | exact Hk].
  - intros (j & Hj & Hk). exists (j - Z.to_nat top)%nat. split; [|lia].
    rewrite lookup_drop. rewrite <- Hk. f_equal. lia.
Qed.

(** What [update_scr_windows] does to a linked document whose current row
    is in the viewport: the slots and the dirty flags. *)
Lemma update_scr_windows_effect (st : state_t) (ls : list loc) :
  linked (Buffer.heap (buf st)) ls ->
  (Z.to_nat (Buffer.current_row (buf st)) < length ls)%nat ->
  Buffer.current (buf st) = ls !! Z.to_nat (Buffer.current_row (buf st)) ->
  0 <= top_row st <= Buffer.current_row (buf st) ->
  Buffer.current_row (buf st) < top_row st + Screen.num_windows (scr st) ->
  top_row st + Screen.num_windows (scr st) <= SIZE_MAX ->
  length (Screen.windows (scr st)) = Z.to_nat (Screen.num_windows (scr st)) ->
  exists st',
    update_scr_windows st = Some st' /\
    (forall k : nat,
       Z.of_nat k < Screen.num_windows (scr st) ->
       Screen.windows (scr st') !! k
       = Some (slot_of ls (Z.to_nat (top_row st) + k))) /\
    stamped (displayed ls (top_row st) (Screen.num_windows (scr st)))
      (Buffer.heap (buf st)) (Buffer.heap (buf st')).
Proof.
  intros Hl Hin Hcur Htop Hview Hfit Hws. unfold update_scr_windows.
  set (t := top_row st) in *. set (c := Buffer.current_row (buf st)) in *.
  set (n := Screen.num_windows (scr st)) in *.
  assert (c + 1 <= SIZE_MAX) as Hrow by lia.
  assert (Buffer.current (buf st) = ls !! Z.to_nat (c + t - t)) as Hcur'
    by (rewrite Hcur; f_equal; lia).
  destruct (link_backward_spec ls t (proj1 Htop) c (Z.to_nat (c - t + 1))
              (proj2 Htop) Hin Hrow t (Buffer.current (buf st))
              (Screen.windows (scr st)) (Buffer.heap (buf st)))
    as (ws1 & h1 & Hrun1 & Hlow1 & _); [lia | lia | auto | exact Hl | lia |].
  destruct (link_backward_stamps ls t (proj1 Htop) c (Z.to_nat (c - t + 1))
              (proj2 Htop) Hin Hrow t _ _ _ _ _ ltac:(lia) ltac:(lia)
              (fun _ => Hcur') Hl Hrun1) as (S1 & Hs1 & Hmem1).
  rewrite Hrun1. cbn.
  destruct (link_backward_frame _ _ _ _ _ _ _ _ _ Hrun1) as [Hsame1 Hlen1].
  pose proof (linked_same_rows _ _ _ Hsame1 Hl) as Hl1.
  destruct (lookup_lt_is_Some_2 ls (Z.to_nat c) Hin) as [l Hlk].
  rewrite Hcur, Hlk. cbn.
  destruct (Hl1 _ _ Hlk) as (cur & Hcell & _ & Hnext). rewrite Hcell. cbn.
  rewrite (wrap_small (t + n)) by (unfold is_size_t; lia).
  rewrite (wrap_small (c + 1)) by (unfold is_size_t; lia).
  assert (Row.next cur = ls !! Z.to_nat (c + 1)) as Hnext'
    by (rewrite Hnext; f_equal; lia).
  destruct (link_forward_spec ls t (proj1 Htop) (t + n)
              (Z.to_nat (t + n - (c + 1))) Hfit (c + 1) (Row.next cur) ws1 h1)
    as (ws2 & h2 & Hrun2 & Hlow2 & Hhigh2);
    [lia | lia | exact Hnext' | exact Hl1 | lia |].
  destruct (link_forward_stamps ls t (proj1 Htop) (t + n)
              (Z.to_nat (t + n - (c + 1))) Hfit (c + 1) _ _ _ _ _
              ltac:(lia) ltac:(lia) Hnext' Hl1 Hrun2) as (S2 & Hs2 & Hmem2).
  rewrite Hrun2. cbn. eexists. split; [reflexivity|]. cbn. split.
  - intros k Hk. destruct (Z_le_gt_dec (Z.of_nat k) (c - t)).
    + rewrite Hhigh2 by lia. apply Hlow1. lia.
    + apply Hlow2. lia.
  - apply (stamped_same_members (S1 ++ S2)); [|eapply stamped_app; eassumption].
    intros k. rewrite elem_of_app, Hmem1, Hmem2, elem_of_displayed by lia.
    split.
    + intros [(j & Hj & Hk)|(j & Hj & Hk)]; exists j; (split; [lia | exact Hk]).
    + intros (j & Hj & Hk).
      destruct (Z_le_gt_dec (Z.of_nat j) c); [left | right];
        exists j; (split; [lia | exact Hk]).
Qed.

(** X11: on a linked document with the current row in the viewport,
    [update_scr_windows] marks dirty exactly the rows it displays, the rows
    [top_row] to [top_row + num_windows - 1] that the document has; it
    changes nothing else of any row and neither adds nor removes a row. *)
Theorem update_scr_windows_stamps_displayed (st : state_t) (ls : list loc) :
  linked (Buffer.heap (buf st)) ls ->
  (Z.to_nat (Buffer.current_row (buf st)) < length ls)%nat ->
  Buffer.current (buf st) = ls !! Z.to_nat (Buffer.current_row (buf st)) ->
  0 <= top_row st <= Buffer.current_row (buf st) ->
  Buffer.current_row (buf st) < top_row st + Screen.num_windows (scr st) ->
  top_row st + Screen.num_windows (scr st) <= SIZE_MAX ->
  length (Screen.windows (scr st)) = Z.to_nat (Screen.num_windows (scr st)) ->
  exists st',
    update_scr_windows st = Some st' /\
    forall l,
      Buffer.heap (buf st') !! l
      = if decide (l ∈ displayed ls (top_row st) (Screen.num_windows (scr st)))
        then Row.set_is_dirty true <$> Buffer.heap (buf st) !! l
        else Buffer.heap (buf st) !! l.
Proof.
  intros Hl Hin Hcur Htop Hview Hfit Hws.
  destruct (update_scr_windows_effect st ls Hl Hin Hcur Htop Hview Hfit Hws)
    as (st' & Hrun & _ & Hs).
  exists st'. split; [exact Hrun | exact Hs].
Qed.

Lemma update_scr_windows_stamps_displayed_witness :
  exists st',
    update_scr_windows (ten_rows_state NORMAL 3 true) = Some st' /\
    forall l,
      Buffer.heap (buf st') !! l
      = if decide (l ∈ displayed ten_rows_addresses 3 4)
        then Row.set_is_dirty true <$> ten_rows !! l
        else ten_rows !! l.
Proof.
  apply (update_scr_windows_stamps_displayed (ten_rows_state NORMAL 3 true)
           ten_rows_addresses ten_rows_linked).
  - simpl. lia.
  - reflexivity.
  - simpl. lia.
  - simpl. lia.
  - unfold SIZE_MAX. simpl. lia.
  - reflexivity.
Defined.

(** ** The whole recompute *)

(** Each step as an update of the fields it writes. *)
Lemma update_mode_status_frame `{BufferOps} (st : state_t) :
  update_mode_status st
  = set_buf (Buffer.set_heap (Buffer.heap (buf (update_mode_status st))) (buf st)) st.
Proof.
  rewrite update_mode_status_eq. destruct (banner (mode st)); cbn.
  - reflexivity.
  - destruct st as [? ? ? ? ? ? [] ? ?]. reflexivity.
Qed.

Lemma update_top_row_frame_eq (st : state_t) :
  update_top_row st
  = set_to_refresh (to_refresh (update_top_row st))
      (set_top_row (top_row (update_top_row st)) st).
Proof.
  unfold update_top_row.
  destruct (_ >=? _); cbn [top_row set_top_row set_to_refresh buf to_refresh];
    destruct (_ <? _); cbn; destruct st; reflexivity.
Qed.

Lemma update_top_row_keeps_flag (st : state_t) :
  to_refresh st = true -> to_refresh (update_top_row st) = true.
Proof.
  unfold update_top_row.
  destruct (_ >=? _); cbn [top_row set_top_row set_to_refresh buf to_refresh];
    destruct (_ <? _); cbn; auto.
Qed.

Lemma update_top_row_nonneg (st : state_t) :
  is_size_t (top_row st) -> is_size_t (Buffer.current_row (buf st)) ->
  0 <= top_row (update_top_row st).
Proof.
  unfold is_size_t. intros Ht Hc. unfold update_top_row.
  destruct (_ >=? _); cbn [top_row set_top_row set_to_refresh buf to_refresh];
    destruct (_ <? _); cbn; try lia.
  unfold wrap, SIZE_MAX.
  pose proof (Z.mod_pos_bound
                ((Buffer.current_row (buf st) - Screen.num_windows (scr st))
                   mod (2 ^ 64 - 1 + 1) + 1) (2 ^ 64 - 1 + 1) ltac:(lia)).
  lia.
Qed.

(** The scroll decision reads [top_row], [current_row] and [num_windows]. *)
Lemma update_top_row_reads (s s' : state_t) :
  top_row s' = top_row s ->
  Buffer.current_row (buf s') = Buffer.current_row (buf s) ->
  Screen.num_windows (scr s') = Screen.num_windows (scr s) ->
  top_row (update_top_row s') = top_row (update_top_row s) /\
  (to_refresh s' = to_refresh s ->
   to_refresh (update_top_row s') = to_refresh (update_top_row s)).
Proof.
  intros Ht Hc Hn. unfold update_top_row. rewrite Ht, Hc, Hn.
  destruct (_ >=? _); cbn [top_row set_top_row set_to_refresh buf to_refresh];
    rewrite ?Hc, ?Ht; destruct (_ <? _); cbn; auto.
Qed.

Lemma update_scr_windows_frame_eq (st st' : state_t) :
  update_scr_windows st = Some st' ->
  st' = set_scr (scr st') (set_buf (Buffer.set_heap (Buffer.heap (buf st')) (buf st)) st).
Proof.
  unfold update_scr_windows.
  destruct (link_backward _ _ _ _ _ _ _) as [[ws1 h1]|]; [|discriminate].
  cbn. destruct (deref h1 _) as [cur|]; [|discriminate]. cbn.
  destruct (link_forward _ _ _ _ _ _ _) as [[ws2 h2]|]; [|discriminate].
  cbn. intros [= <-]. reflexivity.
Qed.

(** With no current row the mapper does not return. *)
Lemma update_scr_windows_null (st : state_t) :
  Buffer.current (buf st) = None -> update_scr_windows st = None.
Proof.
  intros Hnull. unfold update_scr_windows. rewrite Hnull.
  destruct (Z.to_nat (Buffer.current_row (buf st) - top_row st + 1)) as [|m] eqn:Hm;
    cbn.
  - destruct (Z.leb_spec (top_row st) (Buffer.current_row (buf st))); [lia|].
    reflexivity.
  - destruct (top_row st <=? Buffer.current_row (buf st)); reflexivity.
Qed.

(** X12: a buffer whose current row is [NULL] is fatal to the whole core:
    the mapper, the cursor step and [update_state] do not return, nor does
    [handle_enter] in [INSERT_BACK] mode or [handle_backspace] in either
    insert mode. *)
Theorem null_current_row_is_fatal `{BufferOps} (st : state_t) (depth : nat) :
  Buffer.current (buf st) = None ->
  update_scr_windows st = None /\
  update_cursor_position st = None /\
  update_state st = None /\
  (mode st = INSERT_BACK -> handle_enter st = None) /\
  (mode st = INSERT_FRONT \/ mode st = INSERT_BACK ->
   handle_backspace (S depth) st = Fault).
Proof.
  intros Hnull. split; [|split; [|split; [|split]]].
  - apply update_scr_windows_null, Hnull.
  - rewrite update_cursor_position_eq, Hnull. reflexivity.
  - rewrite update_state_unfold. cbv zeta.
    assert (Buffer.current
              (buf (update_padding_front (update_top_row (update_mode_status st))))
            = None) as Hnull3.
    { cbn. rewrite update_top_row_frame_eq. cbn.
      rewrite update_mode_status_frame. cbn. exact Hnull. }
    revert Hnull3.
    generalize (update_padding_front (update_top_row (update_mode_status st))).
    intros st3 Hnull3. destruct (to_refresh st3); cbn.
    + rewrite (update_scr_windows_null st3 Hnull3). reflexivity.
    + rewrite update_cursor_position_eq, Hnull3. reflexivity.
  - intros Hmode. unfold handle_enter.
    rewrite bool_decide_eq_true_2 by exact Hmode. rewrite Hnull. reflexivity.
  - intros [Hmode|Hmode]; cbn [handle_backspace].
    + rewrite handle_backspace_body_front by exact Hmode.
      rewrite Hnull. reflexivity.
    + rewrite handle_backspace_body_back by exact Hmode.
      rewrite Hnull. reflexivity.
Qed.

Lemma null_current_row_is_fatal_witness :
  update_scr_windows (rows_state 1) = None /\
  update_cursor_position (rows_state 1) = None /\
  update_state (H := Reference.ops) (rows_state 1) = None /\
  (mode (rows_state 1) = INSERT_BACK ->
   handle_enter (H := Reference.ops) (rows_state 1) = None) /\
  (mode (rows_state 1) = INSERT_FRONT \/ mode (rows_state 1) = INSERT_BACK ->
   handle_backspace (H := Reference.ops) 1 (rows_state 1) = Fault).
Proof.
  apply (null_current_row_is_fatal (H := Reference.ops) (rows_state 1) 0).
  reflexivity.
Defined.

(** The state [update_state] hands to its cursor step, in terms of the
    state it was given. *)
Lemma update_state_before_cursor `{BufferOps} (st st' : state_t) :
  update_state st = Some st' ->
  exists sd,
    update_cursor_position sd = Some st' /\
    to_refresh sd = false /\
    mode sd = mode st /\
    prev_key sd = prev_key st /\
    buf sd = Buffer.set_heap (Buffer.heap (buf sd)) (buf st) /\
    Screen.num_windows (scr sd) = Screen.num_windows (scr st) /\
    top_row sd = top_row (update_top_row st) /\
    padding_front sd = padding_front (update_padding_front st) /\
    (to_refresh (update_top_row st) = false ->
     scr sd = scr st /\
     Buffer.heap (buf sd) = Buffer.heap (buf (update_mode_status st))).
Proof.
  rewrite update_state_unfold. cbv zeta.
  pose proof (update_mode_status_frame st) as Ha.
  set (sa := update_mode_status st) in *.
  assert (top_row sa = top_row st) as Hta by (rewrite Ha; reflexivity).
  assert (Buffer.current_row (buf sa) = Buffer.current_row (buf st)) as Hca
    by (rewrite Ha; reflexivity).
  assert (Screen.num_windows (scr sa) = Screen.num_windows (scr st)) as Hna
    by (rewrite Ha; reflexivity).
  assert (to_refresh sa = to_refresh st) as Hfa by (rewrite Ha; reflexivity).
  destruct (update_top_row_reads st sa Hta Hca Hna) as [Htb Hfb].
  specialize (Hfb Hfa).
  pose proof (update_top_row_frame_eq sa) as Hb.
  set (sb := update_top_row sa) in *.
  assert (padding_front (update_padding_front sb)
          = padding_front (update_padding_front st)) as Hpad.
  { cbn. rewrite Hb. cbn. rewrite Ha. reflexivity. }
  assert (mode sb = mode st) as Hmb by (rewrite Hb; cbn; rewrite Ha; reflexivity).
  assert (prev_key sb = prev_key st) as Hkb
    by (rewrite Hb; cbn; rewrite Ha; reflexivity).
  assert (buf sb = Buffer.set_heap (Buffer.heap (buf sb)) (buf st)) as Hbb
    by (rewrite Hb; cbn; rewrite Ha; reflexivity).
  assert (scr sb = scr st) as Hsb by (rewrite Hb; cbn; rewrite Ha; reflexivity).
  assert (Buffer.heap (buf sb) = Buffer.heap (buf sa)) as Hhb
    by (rewrite Hb; reflexivity).
  rewrite update_padding_front_flag.
  destruct (to_refresh sb) eqn:Hflag; cbn.
  - destruct (update_scr_windows (update_padding_front sb)) as [sd|] eqn:Hmap;
      cbn; [|discriminate].
    intros Hcur. exists (set_to_refresh false sd). split; [exact Hcur|].
    rewrite (update_scr_windows_frame_eq _ _ Hmap). cbn.
    destruct (update_scr_windows_frame _ _ Hmap) as (_ & _ & _ & _ & _ & _ & Hn).
    cbn in Hn.
    repeat split; try assumption; try congruence.
    all: first [ rewrite Hbb; reflexivity | rewrite Hn, Hsb; reflexivity ].
  - intros Hcur. exists (update_padding_front sb). split; [exact Hcur|]. cbn.
    repeat split; try assumption; try congruence.
Qed.

(** X13: what a call of [update_state] that returns has established: the
    relayout flag is clear, the top row is the scrolled one and not below
    the current row, the gutter width is the recomputed one, and the mode,
    the last key, the number of windows and every field of the buffer but
    its rows are as they were. *)
Theorem update_state_establishes `{BufferOps} (st st' : state_t) :
  update_state st = Some st' ->
  to_refresh st' = false /\
  top_row st' = top_row (update_top_row st) /\
  top_row st' <= Buffer.current_row (buf st) /\
  padding_front st' = padding_front (update_padding_front st) /\
  mode st' = mode st /\
  prev_key st' = prev_key st /\
  Screen.num_windows (scr st') = Screen.num_windows (scr st) /\
  buf st' = Buffer.set_heap (Buffer.heap (buf st')) (buf st).
Proof.
  intros Hrun.
  destruct (update_state_before_cursor st st' Hrun)
    as (sd & Hcur & Hflag & Hmode & Hkey & Hbuf & Hn & Htop & Hpad & _).
  rewrite (update_cursor_position_frame _ _ Hcur). cbn.
  repeat split; try assumption.
  rewrite Htop. apply update_top_row_le.
Qed.

Lemma update_state_establishes_witness :
  to_refresh ten_rows_recomputed = false /\
  top_row ten_rows_recomputed = top_row (update_top_row ten_rows_scrolled) /\
  top_row ten_rows_recomputed <= 5 /\
  padding_front ten_rows_recomputed
  = padding_front (update_padding_front ten_rows_scrolled) /\
  mode ten_rows_recomputed = NORMAL /\
  prev_key ten_rows_recomputed = "000"%char /\
  Screen.num_windows (scr ten_rows_recomputed) = 4 /\
  buf ten_rows_recomputed
  = Buffer.set_heap (Buffer.heap (buf ten_rows_recomputed)) (buf ten_rows_scrolled).
Proof.
  apply (update_state_establishes (H := Reference.ops)
           ten_rows_scrolled ten_rows_recomputed).
  vm_compute. reflexivity.
Defined.

(** X14: with the relayout flag clear and the current row already in the
    viewport, [update_state] maps no display row and marks no row dirty:
    the screen and the top row are as before, and the rows are those
    [update_mode_status] left. *)
Theorem update_state_skips_relayout `{BufferOps} (st st' : state_t) :
  to_refresh st = false ->
  is_size_t (Buffer.current_row (buf st)) ->
  top_row st <= Buffer.current_row (buf st)
    < top_row st + Screen.num_windows (scr st) ->
  top_row st + Screen.num_windows (scr st) <= SIZE_MAX ->
  update_state st = Some st' ->
  scr st' = scr st /\
  top_row st' = top_row st /\
  buf st' = buf (update_mode_status st).
Proof.
  intros Hflag Hc Hvis Hfit Hrun.
  destruct (update_state_before_cursor st st' Hrun)
    as (sd & Hcur & _ & _ & _ & Hbuf & _ & Htop & _ & Hskip).
  rewrite (update_top_row_untouched st Hc Hvis Hfit) in Htop, Hskip.
  destruct (Hskip Hflag) as [Hscr Hheap].
  rewrite (update_cursor_position_frame _ _ Hcur). cbn.
  split; [exact Hscr|]. split; [exact Htop|].
  rewrite Hbuf, Hheap. symmetry.
  rewrite (update_mode_status_frame st) at 1. reflexivity.
Qed.

Lemma update_state_skips_relayout_witness :
  scr ten_rows_unchanged = scr (ten_rows_state NORMAL 3 false) /\
  top_row ten_rows_unchanged = 3 /\
  buf ten_rows_unchanged
  = buf (update_mode_status (H := Reference.ops) (ten_rows_state NORMAL 3 false)).
Proof.
  apply (update_state_skips_relayout (H := Reference.ops)
           (ten_rows_state NORMAL 3 false) ten_rows_unchanged).
  - reflexivity.
  - unfold is_size_t, SIZE_MAX. simpl. lia.
  - simpl. lia.
  - unfold SIZE_MAX. simpl. lia.
  - vm_compute. reflexivity.
Defined.

(** ** Fields the core never reads *)

Section Unread.
Context `{BufferOps}.
Variables (x y p : Z) (key : ascii).

(** Overwriting the derived fields, and overwriting the last key. *)
Let derived (st : state_t) : state_t := set_cx x (set_cy y (set_padding_front p st)).
Let coords (st : state_t) : state_t := set_cx x (set_cy y st).
Let keyed (st : state_t) : state_t := set_prev_key st key.

Lemma update_mode_status_unread (st : state_t) :
  update_mode_status (derived st) = derived (update_mode_status st) /\
  update_mode_status (keyed st) = keyed (update_mode_status st).
Proof.
  rewrite !update_mode_status_eq. cbn.
  destruct (banner (mode st)); split; reflexivity.
Qed.

Lemma update_top_row_unread (st : state_t) :
  update_top_row (derived st) = derived (update_top_row st) /\
  update_top_row (keyed st) = keyed (update_top_row st).
Proof.
  unfold update_top_row. cbn.
  destruct (_ >=? _); cbn; destruct (_ <? _); split; reflexivity.
Qed.

Lemma update_padding_front_unread (st : state_t) :
  update_padding_front (derived st) = coords (update_padding_front st) /\
  update_padding_front (keyed st) = keyed (update_padding_front st).
Proof. split; reflexivity. Qed.

Lemma update_scr_windows_unread (st : state_t) :
  update_scr_windows (coords st) = coords <$> update_scr_windows st /\
  update_scr_windows (keyed st) = keyed <$> update_scr_windows st.
Proof.
  unfold update_scr_windows. cbn.
  destruct (link_backward _ _ _ _ _ _ _) as [[ws1 h1]|]; cbn; [|split; reflexivity].
  destruct (deref h1 _) as [cur|]; cbn; [|split; reflexivity].
  destruct (link_forward _ _ _ _ _ _ _) as [[ws2 h2]|]; split; reflexivity.
Qed.

Lemma update_cursor_position_unread (st : state_t) :
  update_cursor_position (coords st) = update_cursor_position st /\
  update_cursor_position (keyed st) = keyed <$> update_cursor_position st.
Proof.
  rewrite !update_cursor_position_eq. cbn.
  destruct (deref _ (Buffer.current _)) as [row|]; cbn; [|split; reflexivity].
  destruct (bool_decide (mode st = EX)); [|split; reflexivity].
  destruct (deref _ (Buffer.status_row _)); split; reflexivity.
Qed.

Lemma update_state_unread (st : state_t) :
  update_state (derived st) = update_state st /\
  update_state (keyed st) = keyed <$> update_state st.
Proof.
  rewrite !update_state_unfold. cbv zeta.
  destruct (update_mode_status_unread st) as [-> ->].
  destruct (update_top_row_unread (update_mode_status st)) as [-> ->].
  destruct (update_padding_front_unread (update_top_row (update_mode_status st)))
    as [-> ->].
  generalize (update_padding_front (update_top_row (update_mode_status st))).
  intros st3.
  change (to_refresh (coords st3)) with (to_refresh st3).
  change (to_refresh (keyed st3)) with (to_refresh st3).
  destruct (to_refresh st3); cbn.
  - destruct (update_scr_windows_unread st3) as [-> ->].
    destruct (update_scr_windows st3) as [st4|]; cbn; [|split; reflexivity].
    apply (update_cursor_position_unread (set_to_refresh false st4)).
  - apply update_cursor_position_unread.
Qed.

Lemma handle_enter_unread (st : state_t) :
  handle_enter (keyed st) = keyed <$> handle_enter st.
Proof.
  unfold handle_enter. cbn.
  destruct (bool_decide (mode st = INSERT_BACK)); cbn; [|reflexivity].
  destruct (deref _ _) as [row|]; cbn; [|reflexivity].
  destruct (_ =? wrap _); cbn; [reflexivity|].
  destruct (Row.line_size row =? 0); reflexivity.
Qed.

End Unread.

(** X15: the derived fields are outputs only: whatever [cx], [cy] and
    [padding_front] hold before, [update_state] returns the same state. *)
Theorem update_state_ignores_derived_fields `{BufferOps} (st : state_t) (x y p : Z) :
  update_state (set_cx x (set_cy y (set_padding_front p st))) = update_state st.
Proof.
  destruct (update_state_unread x y p "000"%char st) as [Hderived _].
  exact Hderived.
Qed.

(** X16: the last key is never read: [update_state] and [handle_enter]
    give the same result on a state with another last key, that key apart;
    and resetting the key undoes setting it. *)
Theorem prev_key_is_never_read `{BufferOps} (st : state_t) (c : ascii) :
  update_state (set_prev_key st c)
  = (fun st' => set_prev_key st' c) <$> update_state st /\
  handle_enter (set_prev_key st c)
  = (fun st' => set_prev_key st' c) <$> handle_enter st /\
  reset_prev_key (set_prev_key st c) = reset_prev_key st.
Proof.
  destruct (update_state_unread 0 0 0 c st) as [_ Hkey].
  split; [exact Hkey|]. split; [|reflexivity].
  exact (handle_enter_unread c st).
Qed.

(** ** Recompute with relayout *)

Section Relayout.
Context `{StatusLine}.
Variables (st : state_t) (ls : list loc) (sr : loc) (srow : row_t).
Hypothesis status_at : Buffer.status_row (buf st) = Some sr.
Hypothesis status_row_allocated : Buffer.heap (buf st) !! sr = Some srow.
Hypothesis status_outside : sr ∉ ls.
Hypothesis rows_linked : linked (Buffer.heap (buf st)) ls.
Hypothesis row_in : (Z.to_nat (Buffer.current_row (buf st)) < length ls)%nat.
Hypothesis current_at :
  Buffer.current (buf st) = ls !! Z.to_nat (Buffer.current_row (buf st)).
Hypothesis top_ok : is_size_t (top_row st).
Hypothesis row_ok : is_size_t (Buffer.current_row (buf st)).
Hypothesis windows_ok : is_size_t (Screen.num_windows (scr st)).
Hypothesis some_window : 1 <= Screen.num_windows (scr st).
Hypothesis rows_fit :
  Buffer.current_row (buf st) + Screen.num_windows (scr st) <= SIZE_MAX.
Hypothesis windows_allocated :
  length (Screen.windows (scr st)) = Z.to_nat (Screen.num_windows (scr st)).
Hypothesis flag_set : to_refresh st = true.

Lemma update_state_relayout :
  exists st',
    update_state st = Some st' /\
    top_row st' = top_row (update_top_row st) /\
    (top_row st' <= Buffer.current_row (buf st)
       < top_row st' + Screen.num_windows (scr st)) /\
    (forall k : nat,
       Z.of_nat k < Screen.num_windows (scr st) ->
       Screen.windows (scr st') !! k
       = Some (slot_of ls (Z.to_nat (top_row st') + k))) /\
    row_text <$> Buffer.heap (buf st') !! sr
    = Some (status_text (mode st) (row_text srow)).
Proof.
  rewrite update_state_unfold. cbv zeta.
  pose proof (update_mode_status_frame st) as Ha.
  pose proof (update_mode_status_heap st sr status_at) as Hheap_a.
  set (sa := update_mode_status st) in *.
  assert (top_row sa = top_row st) as Hta by (rewrite Ha; reflexivity).
  assert (buf sa = Buffer.set_heap (Buffer.heap (buf sa)) (buf st)) as Hba
    by (rewrite Ha; reflexivity).
  assert (scr sa = scr st) as Hsa by (rewrite Ha; reflexivity).
  assert (to_refresh sa = true) as Hfa by (rewrite Ha; exact flag_set).
  assert (mode sa = mode st) as Hma by (rewrite Ha; reflexivity).
  assert (Buffer.current_row (buf sa) = Buffer.current_row (buf st)) as Hca
    by (rewrite Hba; reflexivity).
  assert (linked (Buffer.heap (buf sa)) ls) as Hla.
  { intros j l Hj. rewrite Hheap_a, status_heap_other; [exact (rows_linked j l Hj)|].
    intros ->. apply status_outside. eapply list_elem_of_lookup_2, Hj. }
  destruct (status_heap_text (mode st) sr _ _ status_row_allocated)
    as (srow' & Hsrow' & Htext). rewrite <- Hheap_a in Hsrow'.
  destruct (update_top_row_frame sa) as (Hmb & Hbb & Hsb & _).
  destruct (update_top_row_reads st sa Hta Hca ltac:(rewrite Hsa; reflexivity))
    as [Htb _].
  assert (top_row (update_top_row sa) <= Buffer.current_row (buf st)
            < top_row (update_top_row sa) + Screen.num_windows (scr st)) as Hvis.
  { rewrite <- Hca, <- Hsa. apply update_top_row_visible.
    - rewrite Hta. exact top_ok.
    - rewrite Hca. exact row_ok.
    - rewrite Hsa. exact windows_ok.
    - rewrite Hsa. exact some_window. }
  assert (0 <= top_row (update_top_row sa)) as Hnonneg.
  { apply update_top_row_nonneg; [rewrite Hta; exact top_ok|].
    rewrite Hca. exact row_ok. }
  pose proof (update_top_row_keeps_flag sa Hfa) as Hfb.
  set (sb := update_top_row sa) in *.
  rewrite update_padding_front_flag, Hfb.
  destruct (update_scr_windows_effect (update_padding_front sb) ls)
    as (sd & Hmap & Hslots & Hstamped).
  { cbn. rewrite Hbb. exact Hla. }
  { cbn. rewrite Hbb, Hca. exact row_in. }
  { cbn. rewrite Hbb, Hca, Hba. exact current_at. }
  { cbn. rewrite Hbb, Hca. lia. }
  { cbn. rewrite Hbb, Hca, Hsb, Hsa. lia. }
  { cbn. rewrite Hsb, Hsa. lia. }
  { cbn. rewrite Hsb, Hsa. exact windows_allocated. }
  cbn in Hslots, Hstamped. rewrite Hsb, Hsa in Hslots, Hstamped.
  rewrite Hbb in Hstamped.
  rewrite Hmap. cbn.
  pose proof (update_scr_windows_frame_eq _ _ Hmap) as Hd. cbn in Hd.
  rewrite Hbb, Hba in Hd.
  (* the rows the cursor step reads *)
  destruct (lookup_lt_is_Some_2 ls _ row_in) as [l Hlk].
  assert (is_Some (Buffer.heap (buf sd) !! l)) as [crow Hcrow].
  { rewrite (Hstamped l). destruct (Hla _ _ Hlk) as (row & -> & _).
    destruct (decide _); cbn; eauto. }
  assert (Buffer.heap (buf sd) !! sr = Some srow') as Hsrow_d.
  { rewrite (Hstamped sr), decide_False; [exact Hsrow'|].
    intros (j & _ & Hj)%elem_of_displayed; [|exact Hnonneg].
    apply status_outside. eapply list_elem_of_lookup_2, Hj. }
  rewrite update_cursor_position_eq. rewrite Hd. cbn.
  rewrite current_at, Hlk. cbn. rewrite Hcrow. cbn.
  rewrite status_at. cbn. rewrite Hsrow_d. cbn.
  destruct (bool_decide (mode sb = EX)); cbn;
    (eexists; split; [reflexivity|]); cbn;
    (split; [exact Htb|]); (split; [exact Hvis|]);
    (split; [exact Hslots|]); rewrite Hsrow_d; cbn; rewrite Htext; reflexivity.
Qed.

End Relayout.

(** X17: on a linked document whose status row is apart from the text rows,
    a run of [update_state] with the relayout flag set succeeds; afterwards
    the current row is in the viewport, window [k] shows document row
    [top_row + k] (or nothing past the last row), and the status row reads
    the mode's banner. *)
Theorem update_state_lays_out_document `{StatusLine}
    (st : state_t) (ls : list loc) (sr : loc) (srow : row_t) :
  Buffer.status_row (buf st) = Some sr ->
  Buffer.heap (buf st) !! sr = Some srow ->
  sr ∉ ls ->
  linked (Buffer.heap (buf st)) ls ->
  (Z.to_nat (Buffer.current_row (buf st)) < length ls)%nat ->
  Buffer.current (buf st) = ls !! Z.to_nat (Buffer.current_row (buf st)) ->
  is_size_t (top_row st) ->
  is_size_t (Buffer.current_row (buf st)) ->
  is_size_t (Screen.num_windows (scr st)) ->
  1 <= Screen.num_windows (scr st) ->
  Buffer.current_row (buf st) + Screen.num_windows (scr st) <= SIZE_MAX ->
  length (Screen.windows (scr st)) = Z.to_nat (Screen.num_windows (scr st)) ->
  to_refresh st = true ->
  exists st',
    update_state st = Some st' /\
    top_row st' = top_row (update_top_row st) /\
    (top_row st' <= Buffer.current_row (buf st)
       < top_row st' + Screen.num_windows (scr st)) /\
    (forall k : nat,
       Z.of_nat k < Screen.num_windows (scr st) ->
       Screen.windows (scr st') !! k
       = Some (slot_of ls (Z.to_nat (top_row st') + k))) /\
    row_text <$> Buffer.heap (buf st') !! sr
    = Some (status_text (mode st) (row_text srow)).
Proof. apply update_state_relayout. Qed.

Lemma update_state_lays_out_document_witness :
  exists st',
    update_state (H := Reference.ops) (ten_rows_state INSERT_FRONT 8 true) = Some st' /\
    top_row st' = top_row (update_top_row (ten_rows_state INSERT_FRONT 8 true)) /\
    (top_row st' <= 5 < top_row st' + 4) /\
    (forall k : nat,
       Z.of_nat k < 4 ->
       Screen.windows (scr st') !! k
       = Some (slot_of ten_rows_addresses (Z.to_nat (top_row st') + k))) /\
    row_text <$> Buffer.heap (buf st') !! 100%positive
    = Some (list_ascii_of_string "-- INSERT --").
Proof.
  apply (update_state_lays_out_document (H0 := reference_status_line)
           (ten_rows_state INSERT_FRONT 8 true) ten_rows_addresses
           100%positive (line "" None None)).
  - reflexivity.
  - reflexivity.
  - intros Hin.
    repeat (apply elem_of_cons in Hin as [Hin|Hin]; [discriminate|]).
    apply elem_of_nil in Hin. exact Hin.
  - exact ten_rows_linked.
  - simpl. lia.
  - reflexivity.
  - unfold is_size_t, SIZE_MAX. simpl. lia.
  - unfold is_size_t, SIZE_MAX. simpl. lia.
  - unfold is_size_t, SIZE_MAX. simpl. lia.
  - simpl. lia.
  - unfold SIZE_MAX. simpl. lia.
  - reflexivity.
  - reflexivity.
Defined.

(** ** Initial state *)

(** Scrolling from the top of the document. *)
Lemma update_top_row_from_top (st : state_t) :
  top_row st = 0 ->
  is_size_t (Buffer.current_row (buf st)) ->
  is_size_t (Screen.num_windows (scr st)) ->
  1 <= Screen.num_windows (scr st) ->
  top_row (update_top_row st)
  = if Buffer.current_row (buf st) <? Screen.num_windows (scr st)
    then 0
    else Buffer.current_row (buf st) - Screen.num_windows (scr st) + 1.
Proof.
  intros Ht Hc Hn Hpos. unfold update_top_row. rewrite Ht.
  rewrite Z.add_0_l, (wrap_small _ Hn).
  unfold is_size_t in *.
  destruct (Z.geb_spec (Buffer.current_row (buf st)) (Screen.num_windows (scr st)));
    destruct (Z.ltb_spec (Buffer.current_row (buf st)) (Screen.num_windows (scr st)));
    try lia; cbn [top_row set_top_row set_to_refresh buf].
  - rewrite wrap_wrap_l, wrap_small by (unfold is_size_t; lia).
    destruct (Z.ltb_spec (Buffer.current_row (buf st))
                (Buffer.current_row (buf st) - Screen.num_windows (scr st) + 1));
      [lia|reflexivity].
  - rewrite Ht. destruct (Z.ltb_spec (Buffer.current_row (buf st)) 0);
      [lia|exact Ht].
Qed.

(** X18: [init_state] on a linked document: whatever [malloc] left in the
    field the function does not assign, the same state comes out; it is in
    [NORMAL] mode with no pending key and the relayout flag clear, the
    viewport starts at row 0 unless the loaded cursor row is further down
    than the screen is high, every window is mapped, and the status row
    reads the [NORMAL] banner. *)
Theorem init_state_first_layout `{StatusLine}
    (b : buffer_t) (s : screen_t) (ls : list loc) (sr : loc) (srow : row_t) :
  Buffer.status_row b = Some sr ->
  Buffer.heap b !! sr = Some srow ->
  sr ∉ ls ->
  linked (Buffer.heap b) ls ->
  (Z.to_nat (Buffer.current_row b) < length ls)%nat ->
  Buffer.current b = ls !! Z.to_nat (Buffer.current_row b) ->
  is_size_t (Buffer.current_row b) ->
  is_size_t (Screen.num_windows s) ->
  1 <= Screen.num_windows s ->
  Buffer.current_row b + Screen.num_windows s <= SIZE_MAX ->
  length (Screen.windows s) = Z.to_nat (Screen.num_windows s) ->
  exists st,
    (forall uninit, init_state b s uninit = Some st) /\
    mode st = NORMAL /\
    prev_key st = "000"%char /\
    to_refresh st = false /\
    top_row st
    = (if Buffer.current_row b <? Screen.num_windows s
       then 0
       else Buffer.current_row b - Screen.num_windows s + 1) /\
    (forall k : nat,
       Z.of_nat k < Screen.num_windows s ->
       Screen.windows (scr st) !! k
       = Some (slot_of ls (Z.to_nat (top_row st) + k))) /\
    row_text <$> Buffer.heap (buf st) !! sr
    = Some (list_ascii_of_string "-- NORMAL --").
Proof.
  intros Hsr Hsrow Hout Hl Hin Hcur Hc Hn Hpos Hfit Hws.
  set (st0 := mk_state NORMAL 0 0 0 0 true b s "000"%char).
  destruct (update_state_relayout st0 ls sr srow Hsr Hsrow Hout Hl Hin Hcur)
    as (st & Hrun & Htop & _ & Hslots & Htext);
    try assumption; try reflexivity.
  { unfold is_size_t, SIZE_MAX. cbn. lia. }
  exists st. split; [|split; [|split; [|split; [|split; [|split]]]]].
  - intros uninit. unfold init_state. rewrite <- Hrun.
    destruct (update_state_unread 0 0 uninit "000"%char st0) as [Hderived _].
    exact Hderived.
  - destruct (update_state_before_cursor st0 st Hrun)
      as (sd & Hstep & _ & Hm & _).
    rewrite (update_cursor_position_frame _ _ Hstep). exact Hm.
  - destruct (update_state_before_cursor st0 st Hrun)
      as (sd & Hstep & _ & _ & Hk & _).
    rewrite (update_cursor_position_frame _ _ Hstep). exact Hk.
  - destruct (update_state_before_cursor st0 st Hrun)
      as (sd & Hstep & Hf & _).
    rewrite (update_cursor_position_frame _ _ Hstep). exact Hf.
  - rewrite Htop. apply (update_top_row_from_top st0); try assumption. reflexivity.
  - exact Hslots.
  - exact Htext.
Qed.

Lemma init_state_first_layout_witness :
  exists st,
    (forall uninit,
       init_state (H := Reference.ops)
         (Buffer.mk (Some 6%positive) 5 0 10 (Some 100%positive) ten_rows)
         (blank_screen 4) uninit = Some st) /\
    mode st = NORMAL /\
    prev_key st = "000"%char /\
    to_refresh st = false /\
    top_row st = 2 /\
    (forall k : nat,
       Z.of_nat k < 4 ->
       Screen.windows (scr st) !! k
       = Some (slot_of ten_rows_addresses (Z.to_nat (top_row st) + k))) /\
    row_text <$> Buffer.heap (buf st) !! 100%positive
    = Some (list_ascii_of_string "-- NORMAL --").
Proof.
  apply (init_state_first_layout (H0 := reference_status_line)
           (Buffer.mk (Some 6%positive) 5 0 10 (Some 100%positive) ten_rows)
           (blank_screen 4) ten_rows_addresses 100%positive (line "" None None)).
  - reflexivity.
  - reflexivity.
  - intros Hin.
    repeat (apply elem_of_cons in Hin as [Hin|Hin]; [discriminate|]).
    apply elem_of_nil in Hin. exact Hin.
  - exact ten_rows_linked.
  - simpl. lia.
  - reflexivity.
  - unfold is_size_t, SIZE_MAX. simpl. lia.
  - unfold is_size_t, SIZE_MAX. simpl. lia.
  - simpl. lia.
  - unfold SIZE_MAX. simpl. lia.
  - reflexivity.
Defined.

(** ** Edit handlers *)

Section Handlers.
Context `{BufferOps}.

(** [handle_enter] writes the mode, the buffer and the relayout flag only. *)
Lemma handle_enter_frame (st st' : state_t) :
  handle_enter st = Some st' ->
  st' = set_to_refresh true (set_buf (buf st') (set_mode (mode st') st)) /\
  (mode st' = mode st \/ mode st = INSERT_BACK /\ mode st' = INSERT_FRONT).
Proof.
  unfold handle_enter. destruct st as [m x y t p f b s k]. cbn.
  destruct (bool_decide_reflect (m = INSERT_BACK)) as [->|Hm]; cbn.
  - destruct (deref _ _) as [row|]; cbn; [|discriminate].
    destruct (_ =? wrap _); cbn; [intros [= <-]; cbn; auto|].
    destruct (Row.line_size row =? 0); cbn; intros [= <-]; cbn; auto.
  - intros [= <-]. cbn. auto.
Qed.

(** So does [handle_backspace], which never clears the flag. *)
Lemma handle_backspace_frame (depth : nat) (st st' : state_t) :
  handle_backspace depth st = Returned st' ->
  st' = set_to_refresh (to_refresh st') (set_buf (buf st') (set_mode (mode st') st)) /\
  (mode st' = mode st \/ mode st = INSERT_BACK /\ mode st' = INSERT_FRONT) /\
  (to_refresh st = true -> to_refresh st' = true).
Proof.
  revert st st'. induction depth as [|depth IH]; intros st st'; [discriminate|].
  cbn [handle_backspace]. destruct (mode st) eqn:Hmode.
  - rewrite handle_backspace_body_normal by exact Hmode. intros [= <-].
    destruct st. cbn in *. auto.
  - rewrite handle_backspace_body_front by exact Hmode.
    destruct (deref _ _ ≫= Row.current) as [e|]; [|discriminate].
    destruct (Echar.prev e); intros [= <-]; destruct st; cbn in *; auto.
  - rewrite handle_backspace_body_back by exact Hmode.
    destruct (deref _ _) as [row|]; [|discriminate].
    destruct (Row.current row); [|intros [= <-]; destruct st; cbn in *; auto].
    destruct (_ =? 0).
    + destruct (_ =? 1); [intros [= <-]; destruct st; cbn in *; auto|].
      intros Hrun. destruct (IH _ _ Hrun) as (Heq & Hm & Hf).
      destruct st. cbn in *. subst mode0.
      split; [exact Heq|]. split; [|exact Hf].
      right. split; [reflexivity|].
      destruct Hm as [Hm|[Hm _]]; [exact Hm|discriminate].
    + destruct (deref _ _ ≫= Row.current) as [e'|]; [|discriminate].
      destruct (Echar.next e'); intros [= <-]; destruct st; cbn in *; auto.
  - rewrite handle_backspace_body_ex by exact Hmode. intros [= <-].
    destruct st. cbn in *. auto.
Qed.

End Handlers.

(** X19: [handle_enter] in [INSERT_BACK] mode.  On a row with characters it
    splits after a placeholder when the cursor is on the last character, and
    otherwise steps right and splits in [INSERT_FRONT] mode; on an empty row
    [line_size - 1] wraps to [SIZE_MAX], so the row is split as it is and the
    mode stays. *)
Theorem handle_enter_insert_back `{BufferOps} (st : state_t) (row : row_t) :
  mode st = INSERT_BACK ->
  deref (Buffer.heap (buf st)) (Buffer.current (buf st)) = Some row ->
  is_size_t (Row.line_size row) ->
  Buffer.current_char (buf st) < SIZE_MAX ->
  handle_enter st
  = Some
      (if Row.line_size row =? 0
       then set_to_refresh true (set_buf (split_row (buf st)) st)
       else if Buffer.current_char (buf st) =? Row.line_size row - 1
       then set_to_refresh true
              (set_buf (delete_char (split_row (append_char (buf st) "0"))) st)
       else set_to_refresh true
              (set_buf (split_row (move_current (buf st) RIGHT))
                 (set_mode INSERT_FRONT st))).
Proof.
  intros Hmode Hrow Hsize Hoff. unfold handle_enter.
  rewrite !bool_decide_eq_true_2 by exact Hmode. rewrite Hrow. cbn.
  unfold is_size_t in Hsize.
  destruct (Z.eqb_spec (Row.line_size row) 0) as [Hz|Hnz].
  - rewrite Hz. rewrite wrap_below by (unfold SIZE_MAX; lia).
    destruct (Z.eqb_spec (Buffer.current_char (buf st)) (0 - 1 + (SIZE_MAX + 1)));
      [lia|]. reflexivity.
  - rewrite wrap_small by (unfold is_size_t; lia).
    destruct (_ =? _); reflexivity.
Qed.

Lemma handle_enter_insert_back_witness :
  handle_enter (H := Reference.ops) (one_row_state INSERT_BACK "" None 0)
  = Some
      (set_to_refresh true
         (set_buf (Reference.split_row (buf (one_row_state INSERT_BACK "" None 0)))
            (one_row_state INSERT_BACK "" None 0))).
Proof.
  apply (handle_enter_insert_back (H := Reference.ops)
           (one_row_state INSERT_BACK "" None 0)
           (Row.mk None 0 false None None)).
  - reflexivity.
  - reflexivity.
  - unfold is_size_t, SIZE_MAX. simpl. lia.
  - unfold SIZE_MAX. simpl. lia.
Defined.

(** X20: the handlers write the mode, the buffer and the relayout flag and
    nothing else: cursor, top row, gutter, screen and pending key are as
    before.  [handle_enter] fails only on a missing current row in
    [INSERT_BACK] mode and always raises the flag; [handle_backspace] never
    clears it; the only mode change either makes is from [INSERT_BACK] to
    [INSERT_FRONT]; outside the insert modes [handle_backspace] returns at
    any depth, in [NORMAL] mode with the state it was given. *)
Theorem handlers_write_mode_buffer_flag `{BufferOps} (st : state_t) :
  (forall d, move_cursor st d = set_buf (buf (move_cursor st d)) st) /\
  (handle_enter st = None <->
   mode st = INSERT_BACK /\
   deref (Buffer.heap (buf st)) (Buffer.current (buf st)) = None) /\
  (forall st', handle_enter st = Some st' ->
     st' = set_to_refresh true (set_buf (buf st') (set_mode (mode st') st)) /\
     (mode st' = mode st \/ mode st = INSERT_BACK /\ mode st' = INSERT_FRONT)) /\
  (forall depth st', handle_backspace depth st = Returned st' ->
     st' = set_to_refresh (to_refresh st') (set_buf (buf st') (set_mode (mode st') st)) /\
     (mode st' = mode st \/ mode st = INSERT_BACK /\ mode st' = INSERT_FRONT) /\
     (to_refresh st = true -> to_refresh st' = true)) /\
  (forall depth, mode st = NORMAL -> handle_backspace (S depth) st = Returned st) /\
  (forall depth, mode st = EX ->
     exists st', handle_backspace (S depth) st = Returned st' /\
                 mode st' = EX /\ to_refresh st' = to_refresh st).
Proof.
  split; [|split; [|split; [|split; [|split]]]].
  - intros d. reflexivity.
  - unfold handle_enter.
    destruct (bool_decide_reflect (mode st = INSERT_BACK)) as [Hm|Hm]; cbn.
    + destruct (deref _ _) as [row|]; cbn.
      * destruct (_ =? wrap _); cbn; [|destruct (Row.line_size row =? 0)];
          cbn; (split; [discriminate|intros [_ [=]]]).
      * split; [auto|reflexivity].
    + split; [discriminate|]. intros [Hm' _]. contradiction.
  - intros st'. apply handle_enter_frame.
  - intros depth st'. apply handle_backspace_frame.
  - intros depth Hmode. cbn [handle_backspace].
    apply handle_backspace_body_normal, Hmode.
  - intros depth Hmode. cbn [handle_backspace].
    rewrite handle_backspace_body_ex by exact Hmode.
    eexists. split; [reflexivity|]. split; [exact Hmode|reflexivity].
Qed.

(** X21: backspace in [INSERT_BACK] mode with the cursor on the first cell
    of a row that is not one character long: the handler switches to
    [INSERT_FRONT], steps right and runs once more on the row the buffer then
    points at, so it does what [INSERT_FRONT] does there, and the editor stays
    in [INSERT_FRONT] mode. *)
Theorem handle_backspace_normalises `{BufferOps} (st : state_t) (depth : nat)
    (row : row_t) (e : echar_t) :
  mode st = INSERT_BACK ->
  deref (Buffer.heap (buf st)) (Buffer.current (buf st)) = Some row ->
  Row.current row = Some e ->
  Buffer.current_char (buf st) = 0 ->
  Row.line_size row <> 1 ->
  handle_backspace (S (S depth)) st
  = let b := move_current (buf st) RIGHT in
    match deref (Buffer.heap b) (Buffer.current b) ≫= Row.current with
    | None => Fault
    | Some e' =>
      Returned
        (match Echar.prev e' with
         | [] => set_to_refresh true (set_buf (join_row b) (set_mode INSERT_FRONT st))
         | _ :: _ => set_buf (delete_char (move_current b LEFT)) (set_mode INSERT_FRONT st)
         end)
    end.
Proof.
  intros Hmode Hrow He Hoff Hsize.
  change (handle_backspace (S (S depth)) st)
    with (handle_backspace_body (handle_backspace (S depth)) st).
  rewrite handle_backspace_body_back by exact Hmode.
  rewrite Hrow, He, Hoff. cbn [Z.eqb].
  rewrite (proj2 (Z.eqb_neq _ _) Hsize).
  cbn [handle_backspace]. rewrite handle_backspace_body_front by reflexivity.
  cbv zeta.
  destruct st as [m x y t p f b s k]. cbn.
  destruct (deref _ _ ≫= Row.current) as [e'|]; [|reflexivity].
  destruct (Echar.prev e'); reflexivity.
Qed.

Lemma handle_backspace_normalises_witness :
  handle_backspace (H := Reference.ops) 2
    (one_row_state INSERT_BACK "hello" (Some (cell "" "h" "ello")) 0)
  = Returned
      (set_buf
         (Reference.delete_char
            (Reference.move_current
               (Reference.move_current
                  (buf (one_row_state INSERT_BACK "hello" (Some (cell "" "h" "ello")) 0))
                  RIGHT)
               LEFT))
         (set_mode INSERT_FRONT
            (one_row_state INSERT_BACK "hello" (Some (cell "" "h" "ello")) 0))).
Proof.
  apply (handle_backspace_normalises (H := Reference.ops)
           (one_row_state INSERT_BACK "hello" (Some (cell "" "h" "ello")) 0) 0
           (Row.mk (Some (cell "" "h" "ello")) 5 false None None)
           (cell "" "h" "ello")).
  - reflexivity.
  - reflexivity.
  - reflexivity.
  - reflexivity.
  - simpl. lia.
Defined.

(** X22: backspace on a row that has no cell.  [INSERT_BACK] tests
    [r->current] and joins the row with the one above; [INSERT_FRONT] reads
    [r->current->prev] without that test and dereferences the null cell. *)
Theorem handle_backspace_on_empty_row `{BufferOps} (st : state_t) (depth : nat)
    (row : row_t) :
  deref (Buffer.heap (buf st)) (Buffer.current (buf st)) = Some row ->
  Row.current row = None ->
  (mode st = INSERT_FRONT -> handle_backspace (S depth) st = Fault) /\
  (mode st = INSERT_BACK ->
   handle_backspace (S depth) st
   = Returned (set_to_refresh true (set_buf (join_row (buf st)) st))).
Proof.
  intros Hrow Hcell. cbn [handle_backspace]. split; intros Hmode.
  - rewrite handle_backspace_body_front by exact Hmode.
    rewrite Hrow. cbn. rewrite Hcell. reflexivity.
  - rewrite handle_backspace_body_back by exact Hmode.
    rewrite Hrow, Hcell. reflexivity.
Qed.

Lemma handle_backspace_on_empty_row_witness :
  handle_backspace (H := Reference.ops) 1 (one_row_state INSERT_FRONT "" None 0)
  = Fault.
Proof.
  apply (handle_backspace_on_empty_row (H := Reference.ops)
           (one_row_state INSERT_FRONT "" None 0) 0
           (Row.mk None 0 false None None) eq_refl eq_refl).
  reflexivity.
Defined.

(** X23: the recompute after [handle_enter] always maps the display rows:
    the flag the handler raised survives the scroll and gutter steps, so
    [update_state] runs [update_scr_windows] and returns with the flag
    clear. *)
Theorem update_state_after_enter `{BufferOps} (st st1 : state_t) :
  handle_enter st = Some st1 ->
  update_state st1
  = update_scr_windows
      (update_padding_front (update_top_row (update_mode_status st1)))
    ≫= (fun sc => update_cursor_position (set_to_refresh false sc)) /\
  (forall st2, update_state st1 = Some st2 -> to_refresh st2 = false).
Proof.
  intros Henter.
  assert (to_refresh st1 = true) as Hflag.
  { destruct (handle_enter_frame st st1 Henter) as [-> _]. reflexivity. }
  split.
  - rewrite update_state_unfold. cbv zeta.
    rewrite update_padding_front_flag, update_top_row_keeps_flag.
    + destruct (update_scr_windows _); reflexivity.
    + rewrite update_mode_status_frame. exact Hflag.
  - intros st2 Hrun.
    destruct (update_state_before_cursor st1 st2 Hrun) as (sd & Hstep & Hf & _).
    rewrite (update_cursor_position_frame _ _ Hstep). exact Hf.
Qed.

Lemma update_state_after_enter_witness :
  update_state (H := Reference.ops)
    (set_to_refresh true
       (set_buf (Reference.split_row (buf (ten_rows_state NORMAL 3 false)))
          (ten_rows_state NORMAL 3 false)))
  = update_scr_windows
      (update_padding_front
         (update_top_row
            (update_mode_status (H := Reference.ops)
               (set_to_refresh true
                  (set_buf (Reference.split_row (buf (ten_rows_state NORMAL 3 false)))
                     (ten_rows_state NORMAL 3 false))))))
    ≫= (fun sc => update_cursor_position (set_to_refresh false sc)).
Proof.
  apply (update_state_after_enter (H := Reference.ops)
           (ten_rows_state NORMAL 3 false)
           (set_to_refresh true
              (set_buf (Reference.split_row (buf (ten_rows_state NORMAL 3 false)))
                 (ten_rows_state NORMAL 3 false)))).
  reflexivity.
Defined.

(** X24: backspace in [INSERT_BACK] mode on a row with a cursor cell.  At
    offset 0 on a row of one character the handler runs [delete_char] and
    returns: no row is joined, and mode and relayout flag stay.  At a nonzero
    offset it runs [delete_char] and then reads [r->current->next]: it
    dereferences a null cell when the deletion left the row without one, and
    otherwise moves left exactly when the cell the deletion left the cursor
    on has a successor. *)
Theorem handle_backspace_insert_back_deletes `{BufferOps} (st : state_t)
    (depth : nat) (row : row_t) (e : echar_t) :
  mode st = INSERT_BACK ->
  deref (Buffer.heap (buf st)) (Buffer.current (buf st)) = Some row ->
  Row.current row = Some e ->
  (Buffer.current_char (buf st) = 0 -> Row.line_size row = 1 ->
   handle_backspace (S depth) st = Returned (set_buf (delete_char (buf st)) st)) /\
  (Buffer.current_char (buf st) <> 0 ->
   handle_backspace (S depth) st
   = match deref (Buffer.heap (delete_char (buf st))) (Buffer.current (buf st))
             ≫= Row.current with
     | None => Fault
     | Some e' =>
       Returned
         (set_buf
            (match Echar.next e' with
             | [] => delete_char (buf st)
             | _ :: _ => move_current (delete_char (buf st)) LEFT
             end) st)
     end).
Proof.
  intros Hmode Hrow He. cbn [handle_backspace].
  rewrite handle_backspace_body_back by exact Hmode.
  rewrite Hrow, He. split.
  - intros -> ->. reflexivity.
  - intros Hoff.
    destruct (Z.eqb_spec (Buffer.current_char (buf st)) 0); [contradiction|].
    destruct (deref _ _ ≫= Row.current) as [e'|]; [|reflexivity].
    destruct (Echar.next e'); reflexivity.
Qed.

Lemma handle_backspace_insert_back_deletes_witness :
  handle_backspace (H := Reference.ops) 1
    (one_row_state INSERT_BACK "h" (Some (cell "" "h" "")) 0)
  = Returned
      (set_buf
         (Reference.delete_char
            (buf (one_row_state INSERT_BACK "h" (Some (cell "" "h" "")) 0)))
         (one_row_state INSERT_BACK "h" (Some (cell "" "h" "")) 0)) /\
  handle_backspace (H := Reference.ops) 1
    (one_row_state INSERT_BACK "hello" (Some (cell "he" "l" "lo")) 2)
  = Returned
      (set_buf
         (Reference.move_current
            (Reference.delete_char
               (buf (one_row_state INSERT_BACK "hello" (Some (cell "he" "l" "lo")) 2)))
            LEFT)
         (one_row_state INSERT_BACK "hello" (Some (cell "he" "l" "lo")) 2)) /\
  handle_backspace (H := Reference.ops) 1
    (one_row_state INSERT_BACK "hello" (Some (cell "hell" "o" "")) 4)
  = Returned
      (set_buf
         (Reference.delete_char
            (buf (one_row_state INSERT_BACK "hello" (Some (cell "hell" "o" "")) 4)))
         (one_row_state INSERT_BACK "hello" (Some (cell "hell" "o" "")) 4)).
Proof.
  split; [|split].
  - apply (handle_backspace_insert_back_deletes (H := Reference.ops)
             (one_row_state INSERT_BACK "h" (Some (cell "" "h" "")) 0) 0
             _ (cell "" "h" "") eq_refl eq_refl eq_refl); reflexivity.
  - apply (handle_backspace_insert_back_deletes (H := Reference.ops)
             (one_row_state INSERT_BACK "hello" (Some (cell "he" "l" "lo")) 2) 0
             _ (cell "he" "l" "lo") eq_refl eq_refl eq_refl).
    discriminate.
  - apply (handle_backspace_insert_back_deletes (H := Reference.ops)
             (one_row_state INSERT_BACK "hello" (Some (cell "hell" "o" "")) 4) 0
             _ (cell "hell" "o" "") eq_refl eq_refl eq_refl).
    discriminate.
Defined.
